(** * jenkins-project-cli: build status resolution and the live log tail

    A shallow embedding of [getProjectStatus], [getBuildLog] and
    [watchProject] of [index.js], and the properties of the build
    lifecycle specification checked against them; then of the commands
    around them ([tasks.watch], [tasks.build], [tasks.log]), of
    [getProjectName] and of [getEnvironment], with what the code shows of
    their behaviour.

    The JavaScript is embedded as follows.
    - Build numbers are integers ([Z]); the few other JavaScript values
      the code can produce from them ([undefined], [null], [NaN],
      [Infinity]) are the constructors of [jsval], with [===], [<], [+]
      and truthiness written out for them.
    - The job document is the object [api.job.get] delivers.  A build
      reference in it is a missing key ([undefined]), [null], or an
      object with a [number].
    - Promises are modelled by what finally happens to them: the promise
      [watchProject] returns is [Pending], [Resolved] or [Rejected], and
      the rejections nobody listens to are collected next to it.
    - The server and the clock are a script: one [Poll] per call of
      [loop], holding the answers the server gives and the readings of
      [new Date()] during that call. *)

From Stdlib Require Import ZArith List String Ascii Bool Lia.
Import ListNotations.
Local Open Scope string_scope.
Local Open Scope list_scope.
Local Open Scope Z_scope.

(** ** JavaScript values *)

Module JS.

Inductive jsval : Type :=
| Undefined
| Null
| Num (z : Z)
| NaN
| Infinity.

(** [a === b] *)
Definition strict_eq (a b : jsval) : bool :=
  match a, b with
  | Undefined, Undefined => true
  | Null, Null => true
  | Num x, Num y => x =? y
  | Infinity, Infinity => true
  | _, _ => false
  end.

(** [ToNumber]: [undefined] becomes [NaN], [null] becomes [0]. *)
Definition to_number (a : jsval) : jsval :=
  match a with
  | Undefined => NaN
  | Null => Num 0
  | _ => a
  end.

(** [a < b]: false as soon as one side is [NaN]. *)
Definition less (a b : jsval) : bool :=
  match to_number a, to_number b with
  | Num x, Num y => x <? y
  | Num _, Infinity => true
  | _, _ => false
  end.

(** [a + 1] *)
Definition succ (a : jsval) : jsval :=
  match to_number a with
  | Num x => Num (x + 1)
  | Infinity => Infinity
  | _ => NaN
  end.

(** Truthiness, as [&&], [||] and [?:] test it. *)
Definition truthy (a : jsval) : bool :=
  match a with
  | Undefined | Null | NaN => false
  | Num x => negb (x =? 0)
  | Infinity => true
  end.

(** [a || b] *)
Definition or_else (a b : jsval) : jsval := if truthy a then a else b.

(** [l.indexOf(x)]: the first position holding a value [===] to [x],
    [-1] when there is none. *)
Fixpoint indexOf_from (i : Z) (x : jsval) (l : list jsval) : Z :=
  match l with
  | [] => -1
  | y :: l' => if strict_eq y x then i else indexOf_from (i + 1) x l'
  end.

Definition indexOf (l : list jsval) (x : jsval) : Z := indexOf_from 0 x l.

(** [l[i]]: [undefined] out of range. *)
Definition index (l : list jsval) (i : nat) : jsval :=
  match nth_error l i with
  | Some v => v
  | None => Undefined
  end.

End JS.
Import JS.

(** ** The job document and the resolved status *)

(** [data.lastBuild] and its siblings. *)
Inductive BuildRef : Type :=
| Missing
| IsNull
| Build (number : Z).

(** [data.queueItem]: absent, or an object that may carry
    [buildableStartMilliseconds]. *)
Record QueueItem : Type := { buildableStartMilliseconds : option Z }.

Record Job : Type := {
  lastCompletedBuild : BuildRef;
  lastSuccessfulBuild : BuildRef;
  lastBuild : BuildRef;
  lastFailedBuild : BuildRef;
  lastUnsuccessfulBuild : BuildRef;
  inQueue : bool;
  queueItem : option QueueItem
}.

(** The strings ['unknown'], ['passing'], ['failing'], ['canceled'] and
    ['running']. *)
Inductive Outcome : Type := unknown | passing | failing | canceled | running_.

Record BuildStatus : Type := {
  running : bool;
  queued : bool;
  current : Outcome;
  status : Outcome;
  last : jsval;
  build : jsval;
  eta : jsval
}.

(** [(ref || {}).number] *)
Definition number_of (r : BuildRef) : jsval :=
  match r with
  | Build n => Num n
  | _ => Undefined
  end.

(** [ref === null] *)
Definition is_null (r : BuildRef) : bool :=
  match r with
  | IsNull => true
  | _ => false
  end.

(** [(data.queueItem || {}).buildableStartMilliseconds || Infinity] *)
Definition queue_eta (q : option QueueItem) : jsval :=
  or_else (match q with
         | Some {| buildableStartMilliseconds := Some t |} => Num t
         | _ => Undefined
         end) Infinity.

(** The [then] callback of [getProjectStatus]: from the job document to the
    status object.  [runningProject] is true when the caller watches a
    build that must already be running. *)
Definition getProjectStatus (runningProject : bool) (data : Job) : BuildStatus :=
  let lastCompletedId := number_of (lastCompletedBuild data) in
  let lastSuccessfullId := number_of (lastSuccessfulBuild data) in
  let lastId := number_of (lastBuild data) in
  let lastFailedId := number_of (lastFailedBuild data) in
  let lastCanceled := number_of (lastUnsuccessfulBuild data) in
  let buildStatus :=
    if is_null (lastCompletedBuild data) then unknown
    else if strict_eq lastSuccessfullId lastCompletedId then passing
    else if strict_eq lastFailedId lastCompletedId then failing
    else if strict_eq lastCanceled lastCompletedId then canceled
    else unknown in
  let currentStatus :=
    if is_null (lastCompletedBuild data) then unknown
    else if strict_eq lastSuccessfullId lastId then passing
    else if strict_eq lastFailedId lastId then failing
    else if strict_eq lastCanceled lastId then canceled
    else running_ in
  let buildId :=
    if inQueue data then (if runningProject then lastId else succ lastId)
    else if less lastCompletedId lastId then succ lastCompletedId
    else Null in
  let etaTime := if inQueue data then queue_eta (queueItem data) else Num 0 in
  {| running := inQueue data || less lastCompletedId lastId;
     queued := inQueue data;
     current := currentStatus;
     status := buildStatus;
     last := lastId;
     build := buildId;
     eta := etaTime |}.

(** ** The log of a build *)

Definition error : Type := string.

(** What a request to the server comes back with. *)
Inductive Response (A : Type) : Type :=
| Ok (a : A)
| Fail (e : error).
Arguments Ok {A} a.
Arguments Fail {A} e.

Definition newline : ascii := ascii_of_nat 10.

(** [log.split('\n')] *)
Fixpoint split (log : string) : list string :=
  match log with
  | EmptyString => [EmptyString]
  | String c rest =>
      if Ascii.eqb c newline then EmptyString :: split rest
      else match split rest with
           | l :: ls => String c l :: ls
           | [] => [String c EmptyString]
           end
  end.

(** [getBuildLog]: the promise is rejected with the error of
    [api.build.log], or resolved with the lines of the text. *)
Definition getBuildLog (answer : Response string) : Response (list string) :=
  match answer with
  | Ok log => Ok (split log)
  | Fail err => Fail err
  end.

(** ** The live tail *)

(** The variables [watchProject] closes over. *)
Record Tail : Type := {
  line : nat;
  count : nat;
  lastChange : Z;
  builds : list jsval
}.

(** What one call of [loop] meets: the answer to [api.job.get], the answer
    to [api.build.log] for the build asked for, and the clock, read once
    where the output is printed (or the start time rendered) and once
    where the silence is measured. *)
Record Poll : Type := {
  jobAnswer : Response Job;
  logAnswer : jsval -> Response string;
  clock : Z;
  clock' : Z
}.

(** What is written to the terminal; [dots] is [count % dots.length]. *)
Inductive Display : Type :=
| LogLines (output : list string)
| Truncated (lines : Z) (dots : nat)
| WaitingOutput (dots : nat)
| WaitingStart (build : jsval) (time : option jsval) (dots : nat)
| NoActiveBuild.

Definition frame (s : Tail) : nat := (count s mod 3)%nat.

(** The callback on the lines of the log (the tailing branch). *)
Definition onLog (s : Tail) (log : list string) (now now' : Z)
  : Tail * list Display :=
  let output := skipn (line s) log in
  let s1 :=
    if (0 <? List.length output)%nat
    then {| line := (line s + List.length output)%nat; count := count s;
            lastChange := now; builds := builds s |}
    else s in
  let printed := if (0 <? List.length output)%nat then [LogLines output] else [] in
  let indicator :=
    if Z.of_nat (List.length log) =? 10000
    then [Truncated (Z.of_nat (List.length log)) (frame s1)]
    else if now' - lastChange s1 >? 3000 then [WaitingOutput (frame s1)]
    else [] in
  (s1, printed ++ indicator).

(** [data.running && (runningProject || !data.queued)] *)
Definition tailing (runningProject : bool) (data : BuildStatus) : bool :=
  running data && (runningProject || negb (queued data)).

(** [if (data.build && builds.indexOf(data.build) > -1) builds.push(data.build)] *)
Definition record_build (bs : list jsval) (b : jsval) : list jsval :=
  if truthy b && (indexOf bs b >? -1) then bs ++ [b] else bs.

(** How the promise chain of one iteration ends. *)
Inductive Chain : Type :=
| Delivered (data : BuildStatus)
    (* [data] reaches [setTimeout(() => loop(...), 1000)] *)
| StatusFailed (err : error)
    (* [getProjectStatus] rejected: the last [.catch(reject)] rejects the
       promise created in this call of [loop] *)
| LogFailed (err : error).
    (* [getBuildLog] rejected: its [.catch(reject)] rejects the promise of
       this call of [loop] and hands [undefined] on as [data]; the timer
       callback then reads [data.running] and throws a [TypeError] *)

(** One iteration: the body of [loop(true)]. *)
Definition poll (runningProject : bool) (s : Tail) (p : Poll)
  : Tail * list Display * Chain :=
  match jobAnswer p with
  | Fail err => (s, [], StatusFailed err)
  | Ok job =>
      let data := getProjectStatus runningProject job in
      let s := {| line := line s; count := S (count s);
                  lastChange := lastChange s;
                  builds := record_build (builds s) (build data) |} in
      if (1 <? List.length (builds s))%nat then (s, [], Delivered data)
      else if tailing runningProject data then
        match getBuildLog (logAnswer p (build data)) with
        | Ok log =>
            let '(s', shown) := onLog s log (clock p) (clock' p) in
            (s', shown, Delivered data)
        | Fail err => (s, [], LogFailed err)
        end
      else if queued data then
        let time :=
          if strict_eq (eta data) Infinity || less (eta data) (Num (clock p))
          then None else Some (eta data) in
        (s, [WaitingStart (build data) time (frame s)], Delivered data)
      else if runningProject && negb (running data) then
        (s, [NoActiveBuild], Delivered data)
      else (s, [], Delivered data)
  end.

(** The callback of [loop(false)]:
    [data.build = data.build || builds[builds.length]]. *)
Definition finish (s : Tail) (data : BuildStatus) : BuildStatus :=
  {| running := running data; queued := queued data;
     current := current data; status := status data; last := last data;
     build := or_else (build data) (index (builds s) (List.length (builds s)));
     eta := eta data |}.

(** The promise [watchProject] returns.  Its executor takes [resolve]
    only. *)
Inductive Promise : Type :=
| Pending
| Resolved (data : BuildStatus)
| Rejected (err : error).

(** A run of [watchProject]: the promise it returned, the rejections of the
    promises of [loop] (nobody listens to them), whether a timer callback
    threw, what was displayed and the variables at the end. *)
Record Run : Type := {
  outer : Promise;
  unhandled : list error;
  typeError : bool;
  shown : list Display;
  tail : Tail
}.

(** [loop(again)] over the script of the server's answers.  With the
    script used up the run is still waiting for an answer. *)
Fixpoint loop (runningProject : bool) (s : Tail) (out : list Display)
  (again : bool) (script : list Poll) : Run :=
  match script with
  | [] => {| outer := Pending; unhandled := []; typeError := false;
             shown := out; tail := s |}
  | p :: script' =>
      if negb again then
        match jobAnswer p with
        | Ok job =>
            {| outer := Resolved (finish s (getProjectStatus runningProject job));
               unhandled := []; typeError := false; shown := out; tail := s |}
        | Fail err =>
            {| outer := Pending; unhandled := [err]; typeError := false;
               shown := out; tail := s |}
        end
      else
        let '(s', seen, chain) := poll runningProject s p in
        match chain with
        | Delivered data =>
            loop runningProject s' (out ++ seen)
              (running data && (List.length (builds s') <? 2)%nat) script'
        | StatusFailed err =>
            {| outer := Pending; unhandled := [err]; typeError := false;
               shown := out ++ seen; tail := s' |}
        | LogFailed err =>
            {| outer := Pending; unhandled := [err]; typeError := true;
               shown := out ++ seen; tail := s' |}
        end
  end.

(** [watchProject], started when the clock reads [start]. *)
Definition watchProject (runningProject : bool) (start : Z)
  (script : list Poll) : Run :=
  loop runningProject
    {| line := 0; count := 0; lastChange := start; builds := [] |}
    [] true script.

(** ** The specification's wording, and the inputs of its scenarios *)

(** "Compare against, in order, ...; first equality wins; no match gives
    the fallback": a lookup in an ordered list of candidates. *)
Fixpoint first_equal (x : jsval) (candidates : list (jsval * Outcome))
  (fallback : Outcome) : Outcome :=
  match candidates with
  | [] => fallback
  | (y, o) :: rest =>
      if strict_eq y x then o else first_equal x rest fallback
  end.

(** [lastSuccessfulBuild], [lastFailedBuild], [lastUnsuccessfulBuild], in
    this order, with the outcome each stands for. *)
Definition candidates (d : Job) : list (jsval * Outcome) :=
  [ (number_of (lastSuccessfulBuild d), passing);
    (number_of (lastFailedBuild d), failing);
    (number_of (lastUnsuccessfulBuild d), canceled) ].

(** The server reports a build that does not exist as [null]. *)
Definition absent (r : BuildRef) : bool := is_null r.

Definition spec_status (d : Job) : Outcome :=
  if absent (lastCompletedBuild d) then unknown
  else first_equal (number_of (lastCompletedBuild d)) (candidates d) unknown.

Definition spec_current (d : Job) : Outcome :=
  if absent (lastCompletedBuild d) then unknown
  else first_equal (number_of (lastBuild d)) (candidates d) running_.

(** "Append [build] to [observedBuildIds] if distinct from its current last
    entry." *)
Definition spec_observe (bs : list jsval) (b : jsval) : list jsval :=
  if strict_eq (index bs (List.length bs - 1)) b then bs else bs ++ [b].

(** "If the resolved [build] is absent, substitute the last entry of
    [observedBuildIds]." *)
Definition spec_finish (bs : list jsval) (data : BuildStatus) : BuildStatus :=
  {| running := running data; queued := queued data;
     current := current data; status := status data; last := last data;
     build := or_else (build data) (index bs (List.length bs - 1));
     eta := eta data |}.

(** A job of which no build exists. *)
Definition never_built : Job :=
  {| lastCompletedBuild := IsNull; lastSuccessfulBuild := IsNull;
     lastBuild := IsNull; lastFailedBuild := IsNull;
     lastUnsuccessfulBuild := IsNull; inQueue := false; queueItem := None |}.

(** Build [n] was the last one, it passed, and [q] tells whether another
    one is queued: [{lastCompletedBuild: n, lastSuccessfulBuild: n,
    lastBuild: n, inQueue: q}]. *)
Definition passed (n : Z) (q : bool) : Job :=
  {| lastCompletedBuild := Build n; lastSuccessfulBuild := Build n;
     lastBuild := Build n; lastFailedBuild := Missing;
     lastUnsuccessfulBuild := Missing; inQueue := q; queueItem := None |}.

(** Build [n] is executing, build [c] was the last to complete and it
    passed. *)
Definition executing (c n : Z) : Job :=
  {| lastCompletedBuild := Build c; lastSuccessfulBuild := Build c;
     lastBuild := Build n; lastFailedBuild := IsNull;
     lastUnsuccessfulBuild := IsNull; inQueue := false; queueItem := None |}.

(** The status the end-to-end scenario of the specification expects for
    [passed 5 false]. *)
Definition scenario_status : BuildStatus :=
  {| running := false; queued := false; current := passing;
     status := passing; last := Num 5; build := Num 5; eta := Num 0 |}.

(** What was displayed. *)
Definition is_truncated (d : Display) : bool :=
  match d with Truncated _ _ => true | _ => false end.

Definition is_idle (d : Display) : bool :=
  match d with WaitingOutput _ => true | _ => false end.

Definition shows (kind : Display -> bool) (out : list Display) : bool :=
  existsb kind out.

Definition times (kind : Display -> bool) (out : list Display) : nat :=
  List.length (filter kind out).

(** A text of [n] line ends, that is of [n + 1] lines. *)
Fixpoint line_ends (n : nat) : string :=
  match n with
  | O => EmptyString
  | S n' => String newline (line_ends n')
  end.

(** The server answers every request: the job is [job], the log of any
    build is [text], and the clock reads [now]. *)
Definition answer (job : Job) (text : string) (now : Z) : Poll :=
  {| jobAnswer := Ok job; logAnswer := fun _ => Ok text;
     clock := now; clock' := now |}.

(** The request for the job fails. *)
Definition job_fails (err : error) (now : Z) : Poll :=
  {| jobAnswer := Fail err; logAnswer := fun _ => Fail err;
     clock := now; clock' := now |}.

(** The job is there, the request for the log fails. *)
Definition log_fails (job : Job) (err : error) (now : Z) : Poll :=
  {| jobAnswer := Ok job; logAnswer := fun _ => Fail err;
     clock := now; clock' := now |}.

(** "The idle indicator is displayed once per crossing of the threshold,
    not on every subsequent poll beyond it": when a poll of the tailing
    branch has displayed it, the next poll, if it brings no new output,
    does not display it again. *)
Definition idle_once_per_crossing : Prop :=
  forall (s : Tail) (log log' : list string) (now1 now1' now2 now2' : Z),
    now1' <= now2 ->
    shows is_idle (snd (onLog s log now1 now1')) = true ->
    skipn (line (fst (onLog s log now1 now1'))) log' = [] ->
    shows is_idle (snd (onLog (fst (onLog s log now1 now1')) log' now2 now2'))
    = false.

(** The promise was rejected. *)
Definition is_rejected (p : Promise) : bool :=
  match p with Rejected _ => true | _ => false end.

(** The variables of a watch whose [printed] lines are out and whose last
    output came when the clock read [changed]. *)
Definition tail_at (printed polls : nat) (changed : Z) : Tail :=
  {| line := printed; count := polls; lastChange := changed; builds := [] |}.

(** Build 42 runs while the first poll is made and is through, having
    passed, at the second; the third call of [loop] resolves. *)
Definition build_42_finishes : list Poll :=
  [ answer (executing 41 42) "compiling" 1000;
    answer (passed 42 false) "compiling" 2000;
    answer (passed 42 false) "compiling" 3000 ].

(** Build 42 runs and prints one line, then nothing for four polls. *)
Definition build_42_silent : list Poll :=
  [ answer (executing 41 42) "compiling" 1000;
    answer (executing 41 42) "compiling" 2000;
    answer (executing 41 42) "compiling" 5000;
    answer (executing 41 42) "compiling" 6000;
    answer (executing 41 42) "compiling" 7000 ].

(** ** Printing the log, and the commands around the watch *)

(** [lines.join('\n')], as [console.log(output.join('\n'))] in the tailing
    branch and [console.log(data.join('\n'))] in the [log] command
    print it. *)
Fixpoint join (lines : list string) : string :=
  match lines with
  | [] => EmptyString
  | l :: rest =>
      match rest with
      | [] => l
      | _ :: _ => (l ++ String newline (join rest))%string
      end
  end.

(** The number of line ends in a text. *)
Fixpoint line_end_count (text : string) : nat :=
  match text with
  | EmptyString => O
  | String c rest =>
      if Ascii.eqb c newline then S (line_end_count rest)
      else line_end_count rest
  end.

(** The log lines among what was displayed, in the order they came. *)
Definition printed (out : list Display) : list string :=
  flat_map (fun d => match d with LogLines l => l | _ => [] end) out.

(** A value read from a property of an object. *)
Inductive value : Type :=
| VUndefined
| VBool (b : bool)
| VString (s : string)
| VNumber (v : jsval).

Definition value_truthy (v : value) : bool :=
  match v with
  | VUndefined => false
  | VBool b => b
  | VString s => negb (s =? "")%string
  | VNumber n => truthy n
  end.

Definition outcome_string (o : Outcome) : string :=
  match o with
  | unknown => "unknown"
  | passing => "passing"
  | failing => "failing"
  | canceled => "canceled"
  | running_ => "running"
  end.

(** [data[key]] for the object [getProjectStatus] returns: its seven own
    properties, [undefined] for any other key (the names inherited from
    [Object.prototype] are not modelled). *)
Definition property (data : BuildStatus) (key : string) : value :=
  if (key =? "running")%string then VBool (running data)
  else if (key =? "queued")%string then VBool (queued data)
  else if (key =? "current")%string then VString (outcome_string (current data))
  else if (key =? "status")%string then VString (outcome_string (status data))
  else if (key =? "last")%string then VNumber (last data)
  else if (key =? "build")%string then VNumber (build data)
  else if (key =? "eta")%string then VNumber (eta data)
  else VUndefined.

(** ['info'] and ['warn']. *)
Inductive Severity : Type := info | warn.

(** [`Build ${data.build} passed`] and [`Build ${data.build} failed`]. *)
Inductive Message : Type :=
| BuildPassed (id : jsval)
| BuildFailed (id : jsval).

Record Payload : Type := { severity : Severity; message : Message }.

(** The [then] callback of the [watch] command. *)
Definition watch_payload (data : BuildStatus) : Payload :=
  {| severity := if value_truthy (property data "passing") then info else warn;
     message := if value_truthy (property data "passing")
                then BuildPassed (build data) else BuildFailed (build data) |}.

(** [tasks.watch]: [watchProject(projectName, true, configuration)] and
    then the payload; there is one once the promise is resolved. *)
Definition tasks_watch (start : Z) (script : list Poll) : option Payload :=
  match outer (watchProject true start script) with
  | Resolved data => Some (watch_payload data)
  | _ => None
  end.

(** What the [build] command makes of the status the watch resolved
    with: a message of success, a warning, or a thrown [Error]. *)
Inductive Verdict : Type :=
| BuildSucceeded
| BuildWasCanceled
| BuildError (status : Outcome).

(** The [then] callback on [watchProject] in [tasks.build]. *)
Definition build_verdict (data : BuildStatus) : Verdict :=
  match status data with
  | passing => BuildSucceeded
  | canceled => BuildWasCanceled
  | other => BuildError other
  end.

(** Build [n] is the last build and is complete, and none of the three
    references has its number. *)
Definition unclassified (n : Z) : Job :=
  {| lastCompletedBuild := Build n; lastSuccessfulBuild := Build (n - 1);
     lastBuild := Build n; lastFailedBuild := Build (n - 2);
     lastUnsuccessfulBuild := Build (n - 2); inQueue := false;
     queueItem := None |}.

(** The first build of a job, number [n], is executing: no build is
    complete yet. *)
Definition first_build (n : Z) : Job :=
  {| lastCompletedBuild := IsNull; lastSuccessfulBuild := IsNull;
     lastBuild := Build n; lastFailedBuild := IsNull;
     lastUnsuccessfulBuild := IsNull; inQueue := false; queueItem := None |}.

(** Build [n] was the last and passed, the next one is queued and
    expected to start at [t]. *)
Definition queued_after (n t : Z) : Job :=
  {| lastCompletedBuild := Build n; lastSuccessfulBuild := Build n;
     lastBuild := Build n; lastFailedBuild := IsNull;
     lastUnsuccessfulBuild := IsNull; inQueue := true;
     queueItem := Some {| buildableStartMilliseconds := Some t |} |}.

(** The server has the log of build [n] only. *)
Definition only_log_of (n : Z) (job : Job) (text : string) (now : Z) : Poll :=
  {| jobAnswer := Ok job;
     logAnswer := fun b => if strict_eq b (Num n) then Ok text
                           else Fail "Not Found";
     clock := now; clock' := now |}.

(** [tasks.log]: the status of the job, the log of [data.last ||
    data.build], and its lines joined again for [console.log]: the text
    printed, or the error the promise is rejected with. *)
Definition tasks_log (job : Response Job)
  (logAnswer : jsval -> Response string) : Response string :=
  match job with
  | Fail err => Fail err
  | Ok j =>
      let data := getProjectStatus false j in
      match getBuildLog (logAnswer (or_else (last data) (build data))) with
      | Ok lines => Ok (join lines)
      | Fail err => Fail err
      end
  end.


(** ** The environment *)

(** [s.indexOf(p)]: the first position where [p] starts in [s], [-1] when
    there is none. *)
Fixpoint text_indexOf_from (i : Z) (p s : string) : Z :=
  if prefix p s then i
  else match s with
       | EmptyString => -1
       | String _ s' => text_indexOf_from (i + 1) p s'
       end.

Definition text_indexOf (s p : string) : Z := text_indexOf_from 0 p s.

(** [s.slice(n)] *)
Fixpoint text_drop (n : nat) (s : string) : string :=
  match n, s with
  | O, _ => s
  | S n', String _ s' => text_drop n' s'
  | S _, EmptyString => EmptyString
  end.

(** [s.replace(p, '')]: [s] without the first occurrence of [p]. *)
Fixpoint remove_first (p s : string) : string :=
  if prefix p s then text_drop (String.length p) s
  else match s with
       | EmptyString => EmptyString
       | String c s' => String c (remove_first p s')
       end.

(** An object with string values, as the list of its own entries; and
    [process.env], in the order of [Object.keys]. *)
Definition Entries : Type := list (string * string).

(** [object[name]] *)
Fixpoint entry (o : Entries) (name : string) : option string :=
  match o with
  | [] => None
  | (k, v) :: o' => if (k =? name)%string then Some v else entry o' name
  end.

(** [_.merge({}, results, {[name]: value})] *)
Fixpoint assign (name value : string) (results : Entries) : Entries :=
  match results with
  | [] => [(name, value)]
  | (k, v) :: o' =>
      if (k =? name)%string then (k, value) :: o'
      else (k, v) :: assign name value o'
  end.

(** The callback of the [reduce] in [getEnvironment]. *)
Definition read_variable (toLowerCase : string -> string) (prefix_ : string)
  (results : Entries) (variable : string * string) : Entries :=
  let '(key, value) := variable in
  let matches := text_indexOf key prefix_ =? 0 in
  let name := toLowerCase (remove_first prefix_ key) in
  if matches then assign name value results else results.

(** [getEnvironment(prefix)] on the environment [env]; [toLowerCase] is
    the function of that name. *)
Definition getEnvironment (toLowerCase : string -> string) (prefix : string)
  (env : Entries) : Entries :=
  fold_left (read_variable toLowerCase (prefix ++ "_")%string) env [].

(** The setting a variable stands for, if it carries the prefix. *)
Definition setting_of (toLowerCase : string -> string) (prefix : string)
  (key : string) : option string :=
  if String.prefix (prefix ++ "_")%string key
  then Some (toLowerCase
               (text_drop (String.length (prefix ++ "_")%string) key))
  else None.

Definition stands_for (toLowerCase : string -> string) (prefix name : string)
  (variable : string * string) : bool :=
  match setting_of toLowerCase prefix (fst variable) with
  | Some n => (n =? name)%string
  | None => false
  end.

(** [toLowerCase] on the letters [A] to [Z]. *)
Definition lower_letter (c : ascii) : ascii :=
  let n := nat_of_ascii c in
  if ((65 <=? n) && (n <=? 90))%nat then ascii_of_nat (n + 32) else c.

Fixpoint lower_letters (s : string) : string :=
  match s with
  | EmptyString => EmptyString
  | String c s' => String (lower_letter c) (lower_letters s')
  end.

(** An environment as the [.env] file of the documentation makes it. *)
Definition dotenv_environment : Entries :=
  [ ("PATH", "/usr/bin"); ("JENKINS_USERNAME", "mario");
    ("JENKINS_PASSWORD", "secret"); ("HOME", "/home/mario");
    ("JENKINS_Username", "nebl") ].

(** ** The project a command works on *)

(** A value as the command line and the configuration files deliver it:
    [undefined], [null], a boolean, a number or a string.  A number stands
    here as the text [String(n)] renders it as; different numbers have
    different texts, and [0] and [-0] both have ["0"].  [NaN], which
    neither the command line parser nor a configuration file delivers, is
    left out. *)
Inductive arg : Type :=
| AUndefined
| ANull
| ABool (b : bool)
| ANumber (rendering : string)
| AString (s : string).

Definition arg_truthy (a : arg) : bool :=
  match a with
  | AUndefined | ANull => false
  | ABool b => b
  | ANumber r => negb (r =? "0")%string
  | AString s => negb (s =? "")%string
  end.

(** [a || b] *)
Definition arg_or (a b : arg) : arg := if arg_truthy a then a else b.

(** [a === b] *)
Definition arg_strict_eq (a b : arg) : bool :=
  match a, b with
  | AUndefined, AUndefined => true
  | ANull, ANull => true
  | ABool x, ABool y => Bool.eqb x y
  | ANumber x, ANumber y => (x =? y)%string
  | AString x, AString y => (x =? y)%string
  | _, _ => false
  end.

(** [String(a)], as [String.prototype.indexOf] applies it to what it is
    to search for. *)
Definition arg_to_string (a : arg) : string :=
  match a with
  | AUndefined => "undefined"
  | ANull => "null"
  | ABool true => "true"
  | ABool false => "false"
  | ANumber r => r
  | AString s => s
  end.

(** [settings.projects] as [main] hands it on: an array (from the
    configuration files or a repeated flag), a string (from
    [JENKINS_PROJECTS] or a single flag), or a value without [indexOf]
    (a number or [true] from a flag). *)
Inductive Projects : Type :=
| ProjectList (items : list arg)
| ProjectText (text : string)
| ProjectOther.

(** The part of the configuration [getProjectName] reads: the positional
    arguments [configuration._] and [configuration.default]. *)
Record Configuration : Type := {
  positional : list arg;
  default : arg
}.

(** [items.indexOf(name)] on an array. *)
Fixpoint arg_indexOf_from (i : Z) (name : arg) (items : list arg) : Z :=
  match items with
  | [] => -1
  | x :: rest =>
      if arg_strict_eq x name then i else arg_indexOf_from (i + 1) name rest
  end.

Definition arg_indexOf (items : list arg) (name : arg) : Z :=
  arg_indexOf_from 0 name items.

(** How a call of [getProjectName] ends: with the name returned, with the
    [Error] whose message names the project asked for and the projects
    there are, or with a [TypeError] ([projects.indexOf] or, in building
    that message, [projects.join] is not a function). *)
Inductive NameResult : Type :=
| Returned (projectName : arg)
| NotAvailable (projectName : arg) (available : list arg)
| TypeErrorThrown.

Definition getProjectName (projects : Projects)
  (configuration : Configuration) : NameResult :=
  let projectName :=
    arg_or (nth 1 (positional configuration) AUndefined)
           (default configuration) in
  match projects with
  | ProjectList items =>
      if arg_indexOf items projectName =? -1
      then NotAvailable projectName items
      else Returned projectName
  | ProjectText text =>
      if text_indexOf text (arg_to_string projectName) =? -1
      then TypeErrorThrown
      else Returned projectName
  | ProjectOther => TypeErrorThrown
  end.

(** [jenkins build web] in a directory configured with the projects
    [api] and [web] and the default [api]; the same with a project that is
    not configured; and [jenkins build api] where [JENKINS_PROJECTS] is
    [api-web]. *)
Definition build_web : Configuration :=
  {| positional := [AString "build"; AString "web"]; default := AString "api" |}.

Definition build_docs : Configuration :=
  {| positional := [AString "build"; AString "docs"];
     default := AString "api" |}.

Definition build_api : Configuration :=
  {| positional := [AString "build"; AString "api"]; default := AUndefined |}.

(** [jenkins build 42]: the command line parser delivers the number. *)
Definition build_number_42 : Configuration :=
  {| positional := [AString "build"; ANumber "42"]; default := AUndefined |}.

(** ** JavaScript values: basic facts *)

Lemma strict_eq_Num (x y : Z) : strict_eq (Num x) (Num y) = true <-> x = y.
Proof. simpl. apply Z.eqb_eq. Qed.

Lemma less_Num (x y : Z) : less (Num x) (Num y) = (x <? y).
Proof. reflexivity. Qed.

(** [a < b] holds between build numbers only. *)
Lemma less_number_of (r r' : BuildRef) :
  less (number_of r) (number_of r') = true ->
  exists c n, r = Build c /\ r' = Build n /\ c < n.
Proof.
  destruct r as [| |c]; try discriminate.
  destruct r' as [| |n]; try discriminate.
  cbn. intros H. apply Z.ltb_lt in H. exists c, n. repeat split. exact H.
Qed.

Lemma index_length (l : list jsval) : index l (List.length l) = Undefined.
Proof.
  unfold index.
  replace (nth_error l (List.length l)) with (@None jsval); [reflexivity|].
  symmetry. apply nth_error_None. lia.
Qed.

Lemma indexOf_from_found (x : jsval) (l : list jsval) (i : Z) :
  indexOf_from i x l > -1 -> 0 <= i -> exists y, In y l /\ strict_eq y x = true.
Proof.
  revert i. induction l as [|y l IH]; simpl; intros i H Hi.
  - lia.
  - destruct (strict_eq y x) eqn:E.
    + exists y. split; [left; reflexivity | exact E].
    + destruct (IH (i + 1) H ltac:(lia)) as [z [Hz Ez]].
      exists z. split; [right; exact Hz | exact Ez].
Qed.

(** ** The Status Resolver *)

(** C1, as amended.  For the snapshot [{lastCompletedBuild: 5,
    lastSuccessfulBuild: 5, lastBuild: 5, inQueue: false}] the resolver
    returns [{running: false, queued: false, current: passing, status:
    passing, last: 5, build: null, eta: 0}]: nothing is queued and no build
    number lies beyond the last completed one, so [build] is [null]. *)
Theorem scenario_resolves_with_null_build (runningProject : bool) :
  getProjectStatus runningProject (passed 5 false)
  = {| running := false; queued := false; current := passing;
       status := passing; last := Num 5; build := Null; eta := Num 0 |}.
Proof. destruct runningProject; reflexivity. Qed.

(** C1, counterexample.  On the snapshot of the scenario the resolver does
    not return the status the scenario lists: its [build] is [null], not
    [5], whichever way the caller watches. *)
Lemma scenario_build_is_not_5 :
  getProjectStatus false (passed 5 false) <> scenario_status
  /\ getProjectStatus true (passed 5 false) <> scenario_status
  /\ build (getProjectStatus false (passed 5 false)) = Null
  /\ build scenario_status = Num 5.
Proof. repeat split; discriminate. Qed.

Lemma status_is_first_equal (runningProject : bool) (d : Job) :
  status (getProjectStatus runningProject d) = spec_status d.
Proof.
  unfold spec_status, absent, candidates, getProjectStatus; simpl.
  destruct (is_null (lastCompletedBuild d)); [reflexivity|].
  repeat match goal with
         | |- context [if ?c then _ else _] => destruct c
         end; reflexivity.
Qed.

Lemma current_is_first_equal (runningProject : bool) (d : Job) :
  current (getProjectStatus runningProject d) = spec_current d.
Proof.
  unfold spec_current, absent, candidates, getProjectStatus; simpl.
  destruct (is_null (lastCompletedBuild d)); [reflexivity|].
  repeat match goal with
         | |- context [if ?c then _ else _] => destruct c
         end; reflexivity.
Qed.

(** C2.  For every job document, [status] is the outcome of the first of
    [lastSuccessfulBuild], [lastFailedBuild], [lastUnsuccessfulBuild]
    (passing, failing, canceled) whose number equals that of
    [lastCompletedBuild], and [unknown] when none does; [current] is found
    the same way from the number of [lastBuild], with [running] when none
    matches; and when [lastCompletedBuild] is absent ([null], as the server
    reports it) both are [unknown]. *)
Theorem status_current_by_ordered_comparison (runningProject : bool) (d : Job) :
  status (getProjectStatus runningProject d) = spec_status d
  /\ current (getProjectStatus runningProject d) = spec_current d
  /\ (lastCompletedBuild d = IsNull ->
      status (getProjectStatus runningProject d) = unknown
      /\ current (getProjectStatus runningProject d) = unknown).
Proof.
  split; [apply status_is_first_equal|].
  split; [apply current_is_first_equal|].
  intros H. unfold getProjectStatus; simpl. rewrite H. split; reflexivity.
Qed.

Lemma status_current_by_ordered_comparison_witness :
  lastCompletedBuild never_built = IsNull
  /\ status (getProjectStatus false never_built) = unknown
  /\ current (getProjectStatus false never_built) = unknown.
Proof.
  split; [reflexivity|].
  exact (proj2 (proj2 (status_current_by_ordered_comparison false never_built))
           eq_refl).
Defined.

(** The comparisons at work on build numbers: the order decides between
    references with the same number, and a build beyond the references is
    running. *)
Example first_equality_wins :
  let d := {| lastCompletedBuild := Build 7; lastSuccessfulBuild := Build 6;
              lastBuild := Build 8; lastFailedBuild := Build 7;
              lastUnsuccessfulBuild := Build 7; inQueue := false;
              queueItem := None |} in
  status (getProjectStatus false d) = failing
  /\ current (getProjectStatus false d) = running_.
Proof. split; reflexivity. Qed.

(** A document that lacks the key [lastCompletedBuild] altogether is not
    caught by the test against [null]: the numbers, all [undefined], then
    compare equal.  The claim above reads absent as [null], the value the
    code tests for. *)
Remark status_without_the_key :
  let d := {| lastCompletedBuild := Missing; lastSuccessfulBuild := Missing;
              lastBuild := Missing; lastFailedBuild := Missing;
              lastUnsuccessfulBuild := Missing; inQueue := false;
              queueItem := None |} in
  status (getProjectStatus false d) = passing.
Proof. reflexivity. Qed.

(** C5.  The [build] field: with a build in the queue it is [lastBuild + 1]
    for a caller that just triggered a build and [lastBuild] for a caller
    watching a project that is already running; otherwise it is
    [lastCompletedBuild + 1] if [lastCompletedBuild < lastBuild], and [null]
    if not.  On build numbers this is integer arithmetic; in particular
    [lastBuild = 41] in the queue gives [42] after a trigger, and
    [lastCompletedBuild = 41], [lastBuild = 42] with nothing queued gives
    [42]. *)
Theorem build_resolution (runningProject : bool) (d : Job) :
  build (getProjectStatus runningProject d)
  = (if inQueue d
     then (if runningProject then number_of (lastBuild d)
           else succ (number_of (lastBuild d)))
     else if less (number_of (lastCompletedBuild d)) (number_of (lastBuild d))
          then succ (number_of (lastCompletedBuild d))
          else Null)
  /\ (forall n, inQueue d = true -> lastBuild d = Build n ->
      build (getProjectStatus runningProject d)
      = if runningProject then Num n else Num (n + 1))
  /\ (forall c n, inQueue d = false ->
      lastCompletedBuild d = Build c -> lastBuild d = Build n ->
      build (getProjectStatus runningProject d)
      = if c <? n then Num (c + 1) else Null)
  /\ build (getProjectStatus false (passed 41 true)) = Num 42
  /\ build (getProjectStatus runningProject (executing 41 42)) = Num 42.
Proof.
  split; [reflexivity|].
  split; [|split; [|split; reflexivity]].
  - intros n Hq Hl. unfold getProjectStatus; simpl. rewrite Hq, Hl.
    destruct runningProject; reflexivity.
  - intros c n Hq Hc Hl. unfold getProjectStatus; simpl. rewrite Hq, Hc, Hl.
    simpl. rewrite less_Num. destruct (c <? n); reflexivity.
Qed.

Lemma build_resolution_witness :
  (inQueue (passed 41 true) = true /\ lastBuild (passed 41 true) = Build 41
   /\ build (getProjectStatus false (passed 41 true)) = Num (41 + 1))
  /\ (inQueue (executing 41 42) = false
      /\ lastCompletedBuild (executing 41 42) = Build 41
      /\ lastBuild (executing 41 42) = Build 42
      /\ build (getProjectStatus false (executing 41 42)) = Num (41 + 1)).
Proof.
  split.
  - split; [reflexivity|]. split; [reflexivity|].
    exact (proj1 (proj2 (build_resolution false (passed 41 true)))
             41 eq_refl eq_refl).
  - split; [reflexivity|]. split; [reflexivity|]. split; [reflexivity|].
    exact (proj1 (proj2 (proj2 (build_resolution false (executing 41 42))))
             41 42 eq_refl eq_refl eq_refl).
Defined.

(** A build queued for a job that was never built gets no number:
    [undefined + 1] is [NaN]. *)
Example build_of_first_trigger :
  let d := {| lastCompletedBuild := IsNull; lastSuccessfulBuild := IsNull;
              lastBuild := IsNull; lastFailedBuild := IsNull;
              lastUnsuccessfulBuild := IsNull; inQueue := true;
              queueItem := None |} in
  build (getProjectStatus false d) = NaN.
Proof. reflexivity. Qed.

(** C6, as amended.  When [lastCompletedBuild], [lastSuccessfulBuild] and
    [lastBuild] are present and carry the same number, [status] and
    [current] are [passing] and [running] is [inQueue]: false when nothing
    is queued, true when a build waits in the queue. *)
Theorem all_equal_is_passing (runningProject : bool) (d : Job) (n : Z) :
  lastCompletedBuild d = Build n ->
  lastSuccessfulBuild d = Build n ->
  lastBuild d = Build n ->
  status (getProjectStatus runningProject d) = passing
  /\ current (getProjectStatus runningProject d) = passing
  /\ running (getProjectStatus runningProject d) = inQueue d
  /\ (inQueue d = false -> running (getProjectStatus runningProject d) = false).
Proof.
  intros Hc Hs Hl. unfold getProjectStatus; simpl. rewrite Hc, Hs, Hl. simpl.
  rewrite Z.eqb_refl, less_Num, Z.ltb_irrefl, orb_false_r.
  repeat split. intros H; exact H.
Qed.

Lemma all_equal_is_passing_witness :
  lastCompletedBuild (passed 5 false) = Build 5
  /\ lastSuccessfulBuild (passed 5 false) = Build 5
  /\ lastBuild (passed 5 false) = Build 5
  /\ status (getProjectStatus false (passed 5 false)) = passing
  /\ current (getProjectStatus false (passed 5 false)) = passing
  /\ running (getProjectStatus false (passed 5 false)) = false.
Proof.
  split; [reflexivity|]. split; [reflexivity|]. split; [reflexivity|].
  destruct (all_equal_is_passing false (passed 5 false) 5
              eq_refl eq_refl eq_refl) as [Hs [Hc [_ Hr]]].
  split; [exact Hs|]. split; [exact Hc|]. exact (Hr eq_refl).
Defined.

(** C6, counterexample.  Build 5 passed and is the last build, and the next
    build waits in the queue: the three references are present and equal,
    and [running] is true. *)
Lemma all_equal_and_queued_is_running :
  lastCompletedBuild (passed 5 true) = Build 5
  /\ lastSuccessfulBuild (passed 5 true) = Build 5
  /\ lastBuild (passed 5 true) = Build 5
  /\ running (getProjectStatus false (passed 5 true)) <> false
  /\ running (getProjectStatus true (passed 5 true)) <> false.
Proof. repeat split; discriminate. Qed.

(** [<] is false on [undefined], so a status that is running without
    being queued comes from two build numbers. *)
Lemma running_unqueued_numbers (runningProject : bool) (d : Job) :
  running (getProjectStatus runningProject d) = true ->
  queued (getProjectStatus runningProject d) = false ->
  exists c n, lastCompletedBuild d = Build c /\ lastBuild d = Build n /\ c < n.
Proof.
  unfold getProjectStatus; simpl. intros Hr Hq. rewrite Hq in Hr. simpl in Hr.
  apply less_number_of. exact Hr.
Qed.

(** ** The live tail: the build numbers seen *)

Lemma record_build_nil (b : jsval) : record_build [] b = [].
Proof. unfold record_build. simpl. rewrite andb_false_r. reflexivity. Qed.

(** Only a number that is in the list already is ever pushed. *)
Lemma record_build_grows (bs : list jsval) (b : jsval) :
  record_build bs b <> bs -> exists y, In y bs /\ strict_eq y b = true.
Proof.
  unfold record_build, indexOf.
  destruct (truthy b); simpl; [|congruence].
  destruct (indexOf_from 0 b bs >? -1) eqn:E; [|congruence].
  intros _. apply (indexOf_from_found b bs 0); [|lia].
  apply Z.gtb_lt in E. lia.
Qed.

Lemma onLog_builds (s : Tail) (log : list string) (now now' : Z) :
  builds (fst (onLog s log now now')) = builds s.
Proof.
  unfold onLog; simpl.
  destruct (0 <? List.length (skipn (line s) log))%nat; reflexivity.
Qed.

Lemma poll_builds_nil (runningProject : bool) (s : Tail) (p : Poll) :
  builds s = [] -> builds (fst (fst (poll runningProject s p))) = [].
Proof.
  intros H. unfold poll.
  destruct (jobAnswer p) as [job|err]; simpl; [|exact H].
  rewrite H, record_build_nil. simpl.
  destruct (tailing runningProject (getProjectStatus runningProject job)).
  - destruct (getBuildLog _) as [log|err]; simpl; [|reflexivity].
    destruct (0 <? List.length (skipn (line s) log))%nat; reflexivity.
  - repeat match goal with
           | |- context [if ?c then _ else _] => destruct c
           end; reflexivity.
Qed.

Lemma loop_builds_nil (runningProject : bool) (script : list Poll) :
  forall s out again,
    builds s = [] ->
    builds (tail (loop runningProject s out again script)) = [].
Proof.
  induction script as [|p script IH]; intros s out again H; simpl.
  - exact H.
  - destruct again; simpl.
    + pose proof (poll_builds_nil runningProject s p H) as Hp.
      destruct (poll runningProject s p) as [[s' seen] chain]. simpl in Hp.
      destruct chain; simpl; [apply IH; exact Hp | exact Hp | exact Hp].
    + destruct (jobAnswer p); simpl; exact H.
Qed.

(** C3, on the code.  Build 42 is executing at the first poll: the
    specification has [observedBuildIds] become [[42]], the code leaves
    [builds] empty, because it pushes a number only if [indexOf] finds it
    in [builds] already; and so [builds] is empty at the end of every
    run. *)
Theorem observed_builds_never_recorded :
  build (getProjectStatus false (executing 41 42)) = Num 42
  /\ spec_observe [] (Num 42) = [Num 42]
  /\ builds (tail (watchProject false 0
                     [answer (executing 41 42) "compiling" 1000])) = []
  /\ (forall b, record_build [] b = [])
  /\ (forall runningProject start script,
      builds (tail (watchProject runningProject start script)) = []).
Proof.
  split; [reflexivity|]. split; [reflexivity|]. split; [reflexivity|].
  split; [exact record_build_nil|].
  intros runningProject start script. unfold watchProject.
  apply loop_builds_nil. reflexivity.
Qed.

(** ** The live tail: how the returned promise ends *)

Lemma loop_never_rejects (runningProject : bool) (script : list Poll) :
  forall s out again,
    is_rejected (outer (loop runningProject s out again script)) = false.
Proof.
  induction script as [|p script IH]; intros s out again; simpl.
  - reflexivity.
  - destruct again; simpl.
    + destruct (poll runningProject s p) as [[s' seen] chain].
      destruct chain; simpl; [apply IH | reflexivity | reflexivity].
    + destruct (jobAnswer p); reflexivity.
Qed.

(** C4, on the code.  When the request for the job fails, at the first poll
    or at the last, or the request for the log fails, the promise
    [watchProject] returned is not rejected: it stays pending, the error
    rejects a promise of [loop] that nobody listens to, and after a failed
    log request the timer callback throws on [undefined.running].  No run
    ends with the returned promise rejected. *)
Theorem fetch_errors_never_reject :
  outer (watchProject false 0 [job_fails "ECONNREFUSED" 1000]) = Pending
  /\ unhandled (watchProject false 0 [job_fails "ECONNREFUSED" 1000])
     = ["ECONNREFUSED"]
  /\ outer (watchProject false 0
              [log_fails (executing 41 42) "ECONNRESET" 1000]) = Pending
  /\ typeError (watchProject false 0
                  [log_fails (executing 41 42) "ECONNRESET" 1000]) = true
  /\ outer (watchProject false 0
              [answer (passed 42 false) "" 1000; job_fails "ETIMEDOUT" 2000])
     = Pending
  /\ (forall runningProject start script,
      is_rejected (outer (watchProject runningProject start script)) = false).
Proof.
  do 5 (split; [reflexivity|]).
  intros runningProject start script. apply loop_never_rejects.
Qed.

Lemma finish_build (s : Tail) (data : BuildStatus) :
  build (finish s data) = or_else (build data) Undefined.
Proof. unfold finish; simpl. rewrite index_length. reflexivity. Qed.

(** C7, on the code.  Build 42 is watched until it is through; the last
    call of [loop] resolves the returned promise with the status fetched
    then, whose [build] is [null].  The specification has the last number
    seen, 42, take its place; the code reads [builds[builds.length]], one
    past the end, and resolves with [build] [undefined], whatever [builds]
    holds.  The last call of [loop] does resolve the promise, with the
    status of the job it fetches. *)
Theorem final_build_is_undefined :
  outer (watchProject false 0 build_42_finishes)
  = Resolved {| running := false; queued := false; current := passing;
                status := passing; last := Num 42; build := Undefined;
                eta := Num 0 |}
  /\ build (spec_finish [Num 42] (getProjectStatus false (passed 42 false)))
     = Num 42
  /\ build (finish {| line := 1; count := 2; lastChange := 1000;
                      builds := [Num 42] |}
              (getProjectStatus false (passed 42 false))) = Undefined
  /\ (forall s data, build (finish s data) = or_else (build data) Undefined)
  /\ (forall runningProject s out job text now script,
      outer (loop runningProject s out false (answer job text now :: script))
      = Resolved (finish s (getProjectStatus runningProject job))).
Proof.
  split; [reflexivity|]. split; [reflexivity|]. split; [reflexivity|].
  split; [exact finish_build|]. intros; reflexivity.
Qed.

(** ** The live tail: truncation and silence *)

Lemma split_line_ends (n : nat) : List.length (split (line_ends n)) = S n.
Proof.
  induction n as [|n IH]; [reflexivity|].
  cbn [line_ends split]. unfold newline at 1. rewrite Ascii.eqb_refl.
  cbn [List.length]. rewrite IH. reflexivity.
Qed.

Lemma shows_app (kind : Display -> bool) (l l' : list Display) :
  shows kind (l ++ l') = shows kind l || shows kind l'.
Proof. apply existsb_app. Qed.

Lemma onLog_truncated (s : Tail) (log : list string) (now now' : Z) :
  shows is_truncated (snd (onLog s log now now'))
  = (Z.of_nat (List.length log) =? 10000).
Proof.
  unfold onLog. cbn [snd]. rewrite shows_app.
  destruct (0 <? List.length (skipn (line s) log))%nat;
    destruct (Z.of_nat (List.length log) =? 10000);
    try reflexivity;
    match goal with
    | |- context [if ?c then _ else _] => destruct c
    end; reflexivity.
Qed.

Lemma onLog_idle (s : Tail) (log : list string) (now now' : Z) :
  shows is_idle (snd (onLog s log now now'))
  = negb (Z.of_nat (List.length log) =? 10000)
    && (now' - lastChange (fst (onLog s log now now')) >? 3000).
Proof.
  unfold onLog. cbn [snd fst]. rewrite shows_app.
  destruct (0 <? List.length (skipn (line s) log))%nat;
    destruct (Z.of_nat (List.length log) =? 10000);
    try reflexivity;
    match goal with
    | |- context [if ?c then _ else _] => destruct c
    end; reflexivity.
Qed.

Lemma onLog_lastChange (s : Tail) (log : list string) (now now' : Z) :
  lastChange (fst (onLog s log now now'))
  = if (0 <? List.length (skipn (line s) log))%nat then now else lastChange s.
Proof.
  unfold onLog. cbn [fst].
  destruct (0 <? List.length (skipn (line s) log))%nat; reflexivity.
Qed.

Lemma onLog_silent (s : Tail) (log : list string) (now now' : Z) :
  skipn (line s) log = [] -> fst (onLog s log now now') = s.
Proof. intros H. unfold onLog. rewrite H. reflexivity. Qed.

(** C8.  In the tailing branch the truncation warning is displayed exactly
    when the log fetched has 10000 lines, and then the idle indicator is not
    displayed.  A text of 10000 lines gives the warning; texts of 9999 and
    of 10001 lines do not, and with the same silence give the idle
    indicator. *)
Theorem truncation_exactly_at_10000 :
  (forall s log now now',
      shows is_truncated (snd (onLog s log now now'))
      = (Z.of_nat (List.length log) =? 10000))
  /\ (forall s log now now',
      shows is_truncated (snd (onLog s log now now'))
      && shows is_idle (snd (onLog s log now now')) = false)
  /\ (forall printed polls changed n now,
      shows is_truncated
        (snd (fst (poll false (tail_at printed polls changed)
                     (answer (executing 41 42) (line_ends n) now))))
      = (Z.of_nat (S n) =? 10000))
  /\ snd (fst (poll false (tail_at (Z.to_nat 20000) 6 0)
                 (answer (executing 41 42) (line_ends (Z.to_nat 9999)) 5000)))
     = [Truncated 10000 1]
  /\ snd (fst (poll false (tail_at (Z.to_nat 20000) 6 0)
                 (answer (executing 41 42) (line_ends (Z.to_nat 9998)) 5000)))
     = [WaitingOutput 1]
  /\ snd (fst (poll false (tail_at (Z.to_nat 20000) 6 0)
                 (answer (executing 41 42) (line_ends (Z.to_nat 10000)) 5000)))
     = [WaitingOutput 1].
Proof.
  split; [exact onLog_truncated|].
  split.
  { intros s log now now'. rewrite onLog_truncated, onLog_idle.
    destruct (Z.of_nat (List.length log) =? 10000); reflexivity. }
  split.
  { intros printed polls changed n now.
    unfold poll, answer, tail_at, getBuildLog.
    cbn [jobAnswer logAnswer clock clock' builds].
    rewrite record_build_nil.
    cbn [List.length Nat.ltb Nat.leb].
    change (tailing false (getProjectStatus false (executing 41 42)))
      with true.
    cbv iota.
    match goal with
    | |- context [onLog ?s ?l ?a ?b] =>
        pose proof (onLog_truncated s l a b) as H;
        destruct (onLog s l a b) as [s' out]
    end.
    cbn [fst snd] in *. rewrite H, split_line_ends. reflexivity. }
  repeat split; vm_compute; reflexivity.
Qed.

(** C9, as amended.  The idle indicator is displayed at every poll of the
    tailing branch at which the log does not have exactly 10000 lines and
    more than 3000 ms have passed since the last new output; new output
    sets that time to the present.  So once displayed it is displayed again
    at each later poll that brings no new output and no log of 10000
    lines. *)
Theorem idle_indicator_at_every_silent_poll
  (s : Tail) (log log' : list string) (now1 now1' now2 now2' : Z) :
  shows is_idle (snd (onLog s log now1 now1'))
  = negb (Z.of_nat (List.length log) =? 10000)
    && (now1' - lastChange (fst (onLog s log now1 now1')) >? 3000)
  /\ lastChange (fst (onLog s log now1 now1'))
     = (if (0 <? List.length (skipn (line s) log))%nat
        then now1 else lastChange s)
  /\ (now1' <= now2' ->
      shows is_idle (snd (onLog s log now1 now1')) = true ->
      skipn (line (fst (onLog s log now1 now1'))) log' = [] ->
      Z.of_nat (List.length log') <> 10000 ->
      shows is_idle
        (snd (onLog (fst (onLog s log now1 now1')) log' now2 now2')) = true).
Proof.
  split; [apply onLog_idle|]. split; [apply onLog_lastChange|].
  intros Ht H1 Hs Hl.
  rewrite onLog_idle in H1. apply andb_prop in H1. destruct H1 as [_ H1].
  rewrite onLog_idle, (onLog_silent _ _ _ _ Hs).
  apply andb_true_intro. split.
  - apply negb_true_iff, Z.eqb_neq. exact Hl.
  - apply Z.gtb_lt. apply Z.gtb_lt in H1. lia.
Qed.

Lemma idle_indicator_at_every_silent_poll_witness :
  4000 <= 5000
  /\ shows is_idle (snd (onLog (tail_at 1 2 0) ["compiling"] 4000 4000)) = true
  /\ skipn (line (fst (onLog (tail_at 1 2 0) ["compiling"] 4000 4000)))
       ["compiling"] = []
  /\ Z.of_nat (List.length ["compiling"]) <> 10000
  /\ shows is_idle
       (snd (onLog (fst (onLog (tail_at 1 2 0) ["compiling"] 4000 4000))
               ["compiling"] 5000 5000)) = true.
Proof.
  split; [lia|]. split; [reflexivity|]. split; [reflexivity|].
  split; [discriminate|].
  apply (proj2 (proj2 (idle_indicator_at_every_silent_poll
                         (tail_at 1 2 0) ["compiling"] ["compiling"]
                         4000 4000 5000 5000)));
    [lia | reflexivity | reflexivity | discriminate].
Defined.

(** C9, counterexample.  One line is out and the log brings nothing new;
    4000 ms after the last output the idle indicator is displayed, and
    1000 ms later, past the same crossing, it is displayed again. *)
Lemma idle_indicator_is_repeated : ~ idle_once_per_crossing.
Proof.
  intros H.
  specialize (H (tail_at 1 2 0) ["compiling"] ["compiling"]
                4000 4000 5000 5000).
  assert (E : true = false).
  { apply H; [lia | reflexivity | reflexivity]. }
  discriminate E.
Qed.

(** The same in a run: build 42 prints its line at the first poll and
    nothing afterwards; the indicator comes at each of the three polls made
    more than 3000 ms later. *)
Example idle_indicator_in_a_run :
  shown (watchProject false 0 build_42_silent)
  = [LogLines ["compiling"]; WaitingOutput 0; WaitingOutput 1; WaitingOutput 2]
  /\ times is_idle (shown (watchProject false 0 build_42_silent)) = 3%nat.
Proof. split; reflexivity. Qed.

(** ** The Status Resolver: the other fields *)

(** X1.  [build] is [null] exactly when the status is not running: a
    status that is running always names a build to follow (a number,
    [undefined] or [NaN], never [null]), and one that is not running never
    does. *)
Theorem build_null_iff_not_running (runningProject : bool) (d : Job) :
  build (getProjectStatus runningProject d) = Null
  <-> running (getProjectStatus runningProject d) = false.
Proof.
  unfold getProjectStatus; simpl.
  destruct (inQueue d); simpl.
  - split; [|discriminate].
    destruct runningProject, (lastBuild d); discriminate.
  - destruct (less (number_of (lastCompletedBuild d)) (number_of (lastBuild d)))
      eqn:E.
    + split; [|discriminate].
      destruct (lastCompletedBuild d); discriminate.
    + split; reflexivity.
Qed.

(** X2.  [eta] is [0] exactly when nothing is queued.  With a build in the
    queue it is the start time [buildableStartMilliseconds] of the queue
    item if there is one and it is not [0], and [Infinity] otherwise: a
    missing queue item, a missing start time and a start time of [0] all
    give [Infinity]. *)
Theorem eta_zero_iff_not_queued (runningProject : bool) (d : Job) :
  (eta (getProjectStatus runningProject d) = Num 0 <-> inQueue d = false)
  /\ (inQueue d = true ->
      eta (getProjectStatus runningProject d)
      = match queueItem d with
        | Some {| buildableStartMilliseconds := Some t |} =>
            if t =? 0 then Infinity else Num t
        | _ => Infinity
        end).
Proof.
  unfold getProjectStatus, queue_eta, or_else; simpl.
  destruct (inQueue d); simpl.
  - split.
    + split; [|discriminate].
      destruct (queueItem d) as [[[t|]]|]; simpl; try discriminate.
      destruct (t =? 0) eqn:E; simpl; [discriminate|].
      intros H. injection H as H. subst t. discriminate.
    + intros _. destruct (queueItem d) as [[[t|]]|]; simpl; try reflexivity.
      destruct (t =? 0); reflexivity.
  - split; [split; reflexivity | discriminate].
Qed.

Lemma eta_zero_iff_not_queued_witness :
  inQueue (passed 41 true) = true
  /\ eta (getProjectStatus false (passed 41 true)) = Infinity.
Proof.
  split; [reflexivity|].
  exact (proj2 (eta_zero_iff_not_queued false (passed 41 true)) eq_refl).
Defined.

(** X3.  [status] is one of [unknown], [passing], [failing] and
    [canceled], never [running]; and [current] is [unknown] exactly when
    [lastCompletedBuild] is [null]. *)
Theorem status_is_never_running (runningProject : bool) (d : Job) :
  (status (getProjectStatus runningProject d) = unknown
   \/ status (getProjectStatus runningProject d) = passing
   \/ status (getProjectStatus runningProject d) = failing
   \/ status (getProjectStatus runningProject d) = canceled)
  /\ (current (getProjectStatus runningProject d) = unknown
      <-> lastCompletedBuild d = IsNull).
Proof.
  unfold getProjectStatus; simpl. split.
  - destruct (is_null (lastCompletedBuild d)); [left; reflexivity|].
    repeat match goal with
           | |- context [if ?c then _ else _] => destruct c
           end; auto.
  - destruct (lastCompletedBuild d) eqn:E; simpl;
      try (split; [|discriminate];
           repeat match goal with
                  | |- context [if ?c then _ else _] => destruct c
                  end; discriminate).
    split; reflexivity.
Qed.

(** X4.  Whether the caller watches a running project or has just
    triggered a build changes nothing but [build], and [build] only when a
    build is queued: there the one status has [lastBuild] and the other
    [lastBuild + 1]. *)
Theorem runningProject_changes_build_only (d : Job) :
  running (getProjectStatus true d) = running (getProjectStatus false d)
  /\ queued (getProjectStatus true d) = queued (getProjectStatus false d)
  /\ current (getProjectStatus true d) = current (getProjectStatus false d)
  /\ status (getProjectStatus true d) = status (getProjectStatus false d)
  /\ last (getProjectStatus true d) = last (getProjectStatus false d)
  /\ eta (getProjectStatus true d) = eta (getProjectStatus false d)
  /\ (inQueue d = false -> getProjectStatus true d = getProjectStatus false d)
  /\ (inQueue d = true ->
      build (getProjectStatus false d)
      = succ (build (getProjectStatus true d))).
Proof.
  do 6 (split; [reflexivity|]). split.
  - intros H. unfold getProjectStatus. rewrite H. reflexivity.
  - intros H. unfold getProjectStatus; simpl. rewrite H. reflexivity.
Qed.

Lemma runningProject_changes_build_only_witness :
  (inQueue (passed 5 false) = false
   /\ getProjectStatus true (passed 5 false)
      = getProjectStatus false (passed 5 false))
  /\ (inQueue (passed 41 true) = true
      /\ build (getProjectStatus false (passed 41 true))
         = succ (build (getProjectStatus true (passed 41 true)))).
Proof.
  split; (split; [reflexivity|]).
  - exact (proj1 (proj2 (proj2 (proj2 (proj2 (proj2 (proj2
             (runningProject_changes_build_only (passed 5 false))))))))
             eq_refl).
  - exact (proj2 (proj2 (proj2 (proj2 (proj2 (proj2 (proj2
             (runningProject_changes_build_only (passed 41 true))))))))
             eq_refl).
Defined.

(** X5.  When [lastBuild] lies beyond [lastCompletedBuild] and none of
    [lastSuccessfulBuild], [lastFailedBuild] and [lastUnsuccessfulBuild]
    has its number, the status is running, [current] is [running], and the
    build to follow is the one after the last completed. *)
Theorem build_beyond_completed_is_running
  (runningProject : bool) (d : Job) (c n : Z) :
  lastCompletedBuild d = Build c ->
  lastBuild d = Build n ->
  c < n ->
  lastSuccessfulBuild d <> Build n ->
  lastFailedBuild d <> Build n ->
  lastUnsuccessfulBuild d <> Build n ->
  inQueue d = false ->
  current (getProjectStatus runningProject d) = running_
  /\ running (getProjectStatus runningProject d) = true
  /\ build (getProjectStatus runningProject d) = Num (c + 1).
Proof.
  intros Hc Hl Hlt Hs Hf Hu Hq.
  assert (ne : forall r, r <> Build n -> strict_eq (number_of r) (Num n) = false).
  { intros [| |m] H; try reflexivity. simpl. apply Z.eqb_neq.
    intros ->. apply H. reflexivity. }
  unfold getProjectStatus; simpl. rewrite Hc, Hl, Hq. simpl.
  rewrite (ne _ Hs), (ne _ Hf), (ne _ Hu), less_Num.
  apply Z.ltb_lt in Hlt. rewrite Hlt. repeat split.
Qed.

Lemma build_beyond_completed_is_running_witness :
  current (getProjectStatus false (executing 41 42)) = running_
  /\ running (getProjectStatus false (executing 41 42)) = true
  /\ build (getProjectStatus false (executing 41 42)) = Num (41 + 1).
Proof.
  apply (build_beyond_completed_is_running false (executing 41 42) 41 42);
    try reflexivity; discriminate.
Defined.

(** X6.  When the last build is the last completed one, [running] is
    [inQueue] and [current] repeats [status], except that where [status]
    is [unknown], because none of the three references has that number,
    [current] is [running]: with nothing queued it is [running] although
    [running] is false. *)
Theorem current_repeats_status_when_completed
  (runningProject : bool) (d : Job) (n : Z) :
  lastCompletedBuild d = Build n ->
  lastBuild d = Build n ->
  current (getProjectStatus runningProject d)
  = match status (getProjectStatus runningProject d) with
    | unknown => running_
    | o => o
    end
  /\ running (getProjectStatus runningProject d) = inQueue d
  /\ (inQueue d = false ->
      status (getProjectStatus runningProject d) = unknown ->
      current (getProjectStatus runningProject d) = running_
      /\ running (getProjectStatus runningProject d) = false).
Proof.
  intros Hc Hl.
  assert (R : running (getProjectStatus runningProject d) = inQueue d).
  { unfold getProjectStatus; simpl. rewrite Hc, Hl. simpl.
    rewrite less_Num, Z.ltb_irrefl. apply orb_false_r. }
  assert (C : current (getProjectStatus runningProject d)
              = match status (getProjectStatus runningProject d) with
                | unknown => running_
                | o => o
                end).
  { unfold getProjectStatus; simpl. rewrite Hc, Hl. simpl.
    repeat match goal with
           | |- context [if ?c then _ else _] => destruct c
           end; reflexivity. }
  split; [exact C|]. split; [exact R|].
  intros Hq Hs. rewrite C, Hs, R. split; [reflexivity | exact Hq].
Qed.

Lemma current_repeats_status_when_completed_witness :
  lastCompletedBuild (unclassified 7) = Build 7
  /\ lastBuild (unclassified 7) = Build 7
  /\ inQueue (unclassified 7) = false
  /\ status (getProjectStatus false (unclassified 7)) = unknown
  /\ current (getProjectStatus false (unclassified 7)) = running_
  /\ running (getProjectStatus false (unclassified 7)) = false.
Proof.
  do 4 (split; [reflexivity|]).
  exact (proj2 (proj2 (current_repeats_status_when_completed false
                         (unclassified 7) 7 eq_refl eq_refl))
           eq_refl eq_refl).
Defined.

(** ** The lines of a log *)

Lemma split_cons (text : string) : exists l ls, split text = l :: ls.
Proof.
  induction text as [|c rest [l [ls IH]]]; simpl.
  - eauto.
  - destruct (Ascii.eqb c newline); [eauto|]. rewrite IH. eauto.
Qed.

Lemma join_cons_cons (l l' : string) (ls : list string) :
  join (l :: l' :: ls) = (l ++ String newline (join (l' :: ls)))%string.
Proof. reflexivity. Qed.

Lemma split_app_line_end (t u : string) :
  split (t ++ String newline u)%string = split t ++ split u.
Proof.
  induction t as [|c t IH]; cbn [append split].
  - unfold newline at 1. rewrite Ascii.eqb_refl. reflexivity.
  - destruct (Ascii.eqb c newline).
    + rewrite IH. reflexivity.
    + rewrite IH. destruct (split_cons t) as [l [ls E]]. rewrite E.
      reflexivity.
Qed.

Lemma split_one_line (l : string) : line_end_count l = O -> split l = [l].
Proof.
  induction l as [|c l IH]; simpl; [reflexivity|].
  destruct (Ascii.eqb c newline); [discriminate|].
  intros H. rewrite (IH H). reflexivity.
Qed.

Lemma join_split_text (text : string) : join (split text) = text.
Proof.
  induction text as [|c rest IH]; [reflexivity|].
  cbn [split]. destruct (Ascii.eqb c newline) eqn:E.
  - apply Ascii.eqb_eq in E. subst c.
    destruct (split_cons rest) as [l [ls R]]. rewrite R in *.
    rewrite join_cons_cons, IH. reflexivity.
  - destruct (split_cons rest) as [l [ls R]]. rewrite R in *.
    destruct ls as [|l' ls].
    + simpl in *. rewrite IH. reflexivity.
    + rewrite join_cons_cons in IH. rewrite join_cons_cons.
      cbn [append]. rewrite IH. reflexivity.
Qed.

(** X7.  Joining the lines of a text with line ends gives the text back,
    for every text: splitting loses nothing, not even a line end at the
    end of the text. *)
Theorem join_split (text : string) : join (split text) = text.
Proof. exact (join_split_text text). Qed.

(** X8.  A text has one line more than it has line ends, so even the
    empty log has a line, the empty one, and a log that ends with a line
    end has an empty last line; no line holds a line end. *)
Theorem split_counts_line_ends (text : string) :
  List.length (split text) = S (line_end_count text)
  /\ Forall (fun l => line_end_count l = O) (split text)
  /\ split EmptyString = [EmptyString]
  /\ split (text ++ String newline EmptyString)%string
     = split text ++ [EmptyString].
Proof.
  split; [|split; [|split; [reflexivity | apply split_app_line_end]]].
  - induction text as [|c rest IH]; [reflexivity|].
    simpl. destruct (Ascii.eqb c newline); simpl.
    + rewrite IH. reflexivity.
    + destruct (split_cons rest) as [l [ls R]]. rewrite R in *. exact IH.
  - induction text as [|c rest IH]; simpl.
    + constructor; [reflexivity | constructor].
    + destruct (Ascii.eqb c newline) eqn:E.
      * constructor; [reflexivity | exact IH].
      * destruct (split_cons rest) as [l [ls R]]. rewrite R in *.
        inversion IH as [|? ? Hl Hls]; subst.
        constructor; [simpl; rewrite E; exact Hl | exact Hls].
Qed.

(** X9.  Lines without line ends, at least one of them, are what the text
    joined from them splits into. *)
Theorem split_join (lines : list string) :
  lines <> [] ->
  Forall (fun l => line_end_count l = O) lines ->
  split (join lines) = lines.
Proof.
  intros Hne H. induction H as [|l ls Hl Hls IH]; [congruence|].
  destruct ls as [|l' ls].
  - simpl. apply split_one_line. exact Hl.
  - rewrite join_cons_cons, split_app_line_end, (split_one_line l Hl).
    rewrite IH; [reflexivity | discriminate].
Qed.

Lemma split_join_witness :
  split (join ["Started by user"; "Finished: SUCCESS"; ""])
  = ["Started by user"; "Finished: SUCCESS"; ""].
Proof.
  apply split_join; [discriminate|].
  repeat constructor.
Defined.

(** ** The tail: which lines are printed *)

Lemma printed_app (out out' : list Display) :
  printed (out ++ out') = printed out ++ printed out'.
Proof. unfold printed. apply flat_map_app. Qed.

Lemma ltb_length_nil {A : Type} (l : list A) :
  (0 <? List.length l)%nat = false -> l = [].
Proof. destruct l; [reflexivity | discriminate]. Qed.

(** The lines a poll prints are those of the log from [line] on. *)
Lemma printed_onLog (s : Tail) (log : list string) (now now' : Z) :
  printed (snd (onLog s log now now')) = skipn (line s) log.
Proof.
  unfold onLog. cbn [snd]. rewrite printed_app.
  replace (printed (if Z.of_nat (List.length log) =? 10000
                    then _ else _)) with (@nil string).
  - rewrite app_nil_r.
    destruct (0 <? List.length (skipn (line s) log))%nat eqn:E.
    + simpl. apply app_nil_r.
    + rewrite (ltb_length_nil _ E). reflexivity.
  - repeat match goal with
           | |- context [if ?c then _ else _] => destruct c
           end; reflexivity.
Qed.

Lemma line_onLog (s : Tail) (log : list string) (now now' : Z) :
  line (fst (onLog s log now now')) = Nat.max (line s) (List.length log).
Proof.
  unfold onLog. cbn [fst].
  destruct (0 <? List.length (skipn (line s) log))%nat eqn:E.
  - apply Nat.ltb_lt in E. rewrite length_skipn in *. simpl. lia.
  - apply Nat.ltb_ge in E. rewrite length_skipn in E. lia.
Qed.

(** X10.  After a poll of the tailing branch the count of printed lines is
    the greater of what it was and the length of the log fetched: it never
    goes down, a shorter log leaves it as it is, and the lines printed are
    exactly those of the log beyond the old count. *)
Theorem printed_line_count_after_poll
  (s : Tail) (log : list string) (now now' : Z) :
  line (fst (onLog s log now now')) = Nat.max (line s) (List.length log)
  /\ (line s <= line (fst (onLog s log now now')))%nat
  /\ printed (snd (onLog s log now now')) = skipn (line s) log
  /\ List.length (printed (snd (onLog s log now now')))
     = (line (fst (onLog s log now now')) - line s)%nat.
Proof.
  pose proof (line_onLog s log now now') as H.
  split; [exact H|]. split; [lia|].
  rewrite printed_onLog. split; [reflexivity|].
  rewrite length_skipn. lia.
Qed.

Lemma onLog_count (s : Tail) (log : list string) (now now' : Z) :
  count (fst (onLog s log now now')) = count s.
Proof.
  unfold onLog; cbn [fst].
  destruct (0 <? List.length (skipn (line s) log))%nat; reflexivity.
Qed.

(** A poll in the tailing branch is the callback on the lines of the log
    asked for, after the count of polls has gone up. *)
Lemma poll_tailing (runningProject : bool) (s : Tail) (p : Poll) (j : Job)
  (text : string) :
  builds s = [] ->
  jobAnswer p = Ok j ->
  tailing runningProject (getProjectStatus runningProject j) = true ->
  logAnswer p (build (getProjectStatus runningProject j)) = Ok text ->
  poll runningProject s p
  = (fst (onLog {| line := line s; count := S (count s);
                   lastChange := lastChange s; builds := [] |}
            (split text) (clock p) (clock' p)),
     snd (onLog {| line := line s; count := S (count s);
                   lastChange := lastChange s; builds := [] |}
            (split text) (clock p) (clock' p)),
     Delivered (getProjectStatus runningProject j)).
Proof.
  intros Hb Hj Ht Hl. unfold poll. rewrite Hj, Hb, record_build_nil.
  cbn [builds List.length Nat.ltb Nat.leb]. cbv iota.
  rewrite Ht, Hl. cbn [getBuildLog].
  destruct (onLog _ (split text) (clock p) (clock' p)); reflexivity.
Qed.

(** X11.  A poll of the tailing branch that fetches the same log as the
    poll before prints no line and leaves the line count, the time of the
    last output and the build numbers as they are; of the variables only
    the count of polls changes, by one. *)
Theorem unchanged_log_prints_nothing
  (runningProject : bool) (s : Tail) (p1 p2 : Poll) (j : Job)
  (text : string) :
  builds s = [] ->
  jobAnswer p1 = Ok j ->
  jobAnswer p2 = Ok j ->
  tailing runningProject (getProjectStatus runningProject j) = true ->
  logAnswer p1 (build (getProjectStatus runningProject j)) = Ok text ->
  logAnswer p2 (build (getProjectStatus runningProject j)) = Ok text ->
  printed (snd (fst (poll runningProject
                       (fst (fst (poll runningProject s p1))) p2))) = []
  /\ line (fst (fst (poll runningProject
                       (fst (fst (poll runningProject s p1))) p2)))
     = line (fst (fst (poll runningProject s p1)))
  /\ lastChange (fst (fst (poll runningProject
                             (fst (fst (poll runningProject s p1))) p2)))
     = lastChange (fst (fst (poll runningProject s p1)))
  /\ builds (fst (fst (poll runningProject
                         (fst (fst (poll runningProject s p1))) p2)))
     = builds (fst (fst (poll runningProject s p1)))
  /\ count (fst (fst (poll runningProject
                        (fst (fst (poll runningProject s p1))) p2)))
     = S (count (fst (fst (poll runningProject s p1)))).
Proof.
  intros Hb H1 H2 Ht L1 L2.
  rewrite (poll_tailing runningProject s p1 j text Hb H1 Ht L1). cbn [fst].
  set (s1 := fst (onLog _ (split text) (clock p1) (clock' p1))).
  assert (B1 : builds s1 = []) by (unfold s1; rewrite onLog_builds; reflexivity).
  assert (N1 : (List.length (split text) <= line s1)%nat)
    by (unfold s1; rewrite line_onLog; lia).
  rewrite (poll_tailing runningProject s1 p2 j text B1 H2 Ht L2). cbn [fst snd].
  assert (E : skipn (line s1) (split text) = []) by (apply skipn_all2; exact N1).
  rewrite printed_onLog. cbn [line]. split; [exact E|].
  rewrite onLog_silent by exact E. cbn [line lastChange builds count].
  rewrite B1. repeat split.
Qed.

Lemma unchanged_log_prints_nothing_witness :
  printed (snd (fst (poll false
                       (fst (fst (poll false (tail_at 0 2 0)
                                    (answer (executing 41 42) "compiling" 1000))))
                       (answer (executing 41 42) "compiling" 2000)))) = []
  /\ count (fst (fst (poll false (tail_at 0 2 0)
                        (answer (executing 41 42) "compiling" 1000)))) = 3%nat
  /\ count (fst (fst (poll false
                        (fst (fst (poll false (tail_at 0 2 0)
                                     (answer (executing 41 42) "compiling" 1000))))
                        (answer (executing 41 42) "compiling" 2000)))) = 4%nat.
Proof.
  split; [|split; reflexivity].
  exact (proj1 (unchanged_log_prints_nothing false (tail_at 0 2 0)
                  (answer (executing 41 42) "compiling" 1000)
                  (answer (executing 41 42) "compiling" 2000)
                  (executing 41 42) "compiling"
                  eq_refl eq_refl eq_refl eq_refl eq_refl eq_refl)).
Defined.

(** X12.  When the log grows by whole lines between two polls, and the
    first poll finds no fewer lines than were printed before, the two polls
    together print the lines of the longer log beyond the old count, each
    once and in order. *)
Theorem grown_log_prints_the_new_lines
  (s : Tail) (log more : list string) (now1 now1' now2 now2' : Z) :
  (line s <= List.length log)%nat ->
  printed (snd (onLog s log now1 now1'))
  ++ printed (snd (onLog (fst (onLog s log now1 now1')) (log ++ more)
                     now2 now2'))
  = skipn (line s) (log ++ more)
  /\ printed (snd (onLog (fst (onLog s log now1 now1')) (log ++ more)
                     now2 now2')) = more.
Proof.
  intros H.
  assert (E : printed (snd (onLog (fst (onLog s log now1 now1')) (log ++ more)
                              now2 now2')) = more).
  { rewrite printed_onLog, line_onLog.
    replace (Nat.max (line s) (List.length log)) with (List.length log) by lia.
    rewrite skipn_app, skipn_all, Nat.sub_diag. reflexivity. }
  split; [|exact E].
  rewrite E, printed_onLog, skipn_app.
  replace (line s - List.length log)%nat with O by lia. reflexivity.
Qed.

Lemma grown_log_prints_the_new_lines_witness :
  printed (snd (onLog (tail_at 1 3 0) ["a"; "b"] 1000 1000))
  ++ printed (snd (onLog (fst (onLog (tail_at 1 3 0) ["a"; "b"] 1000 1000))
                     (["a"; "b"] ++ ["c"; "d"]) 2000 2000))
  = skipn (line (tail_at 1 3 0)) (["a"; "b"] ++ ["c"; "d"])
  /\ printed (snd (onLog (fst (onLog (tail_at 1 3 0) ["a"; "b"] 1000 1000))
                     (["a"; "b"] ++ ["c"; "d"]) 2000 2000)) = ["c"; "d"].
Proof.
  apply (grown_log_prints_the_new_lines (tail_at 1 3 0) ["a"; "b"] ["c"; "d"]).
  simpl. lia.
Defined.

(** X13.  When the text fetched ends with a line end, its empty last line
    counts as printed, and the first line the log gains afterwards is
    skipped: after a poll on [t] followed by a line end, a poll on that
    text followed by [u] prints the lines of [u] but the first, and the
    count then stands at the length of the log, so that line is not
    printed later either. *)
Theorem line_after_a_line_end_is_skipped
  (s : Tail) (t u : string) (now1 now1' now2 now2' : Z) :
  (line s <= S (List.length (split t)))%nat ->
  let s1 := fst (onLog s (split (t ++ String newline EmptyString)%string)
                   now1 now1') in
  let later := split (t ++ String newline u)%string in
  later = split t ++ split u
  /\ printed (snd (onLog s1 later now2 now2')) = tl (split u)
  /\ line (fst (onLog s1 later now2 now2')) = List.length later.
Proof.
  intros H s1 later.
  assert (L : line s1 = S (List.length (split t))).
  { unfold s1. rewrite line_onLog, split_app_line_end, length_app.
    cbn [split List.length]. lia. }
  assert (E : later = split t ++ split u) by apply split_app_line_end.
  split; [exact E|]. split.
  - rewrite printed_onLog, L, E, skipn_app.
    rewrite skipn_all2 by lia.
    replace (S (List.length (split t)) - List.length (split t))%nat
      with 1%nat by lia.
    destruct (split u); reflexivity.
  - rewrite line_onLog, L, E, length_app.
    destruct (split_cons u) as [l [ls R]]. rewrite R.
    cbn [List.length]. lia.
Qed.

Lemma line_after_a_line_end_is_skipped_witness :
  split ("compiling" ++ String newline "linking")%string
  = split "compiling" ++ split "linking"
  /\ printed
       (snd (onLog
               (fst (onLog (tail_at 0 1 0)
                       (split ("compiling" ++ String newline EmptyString)%string)
                       1000 1000))
               (split ("compiling" ++ String newline "linking")%string)
               2000 2000))
     = []
  /\ line
       (fst (onLog
               (fst (onLog (tail_at 0 1 0)
                       (split ("compiling" ++ String newline EmptyString)%string)
                       1000 1000))
               (split ("compiling" ++ String newline "linking")%string)
               2000 2000))
     = 2%nat.
Proof.
  apply (line_after_a_line_end_is_skipped (tail_at 0 1 0)
           "compiling" "linking" 1000 1000 2000 2000).
  simpl. lia.
Defined.

(** ** The watch: when and with what it resolves *)

Lemma not_running_not_queued (runningProject : bool) (d : Job) :
  running (getProjectStatus runningProject d) = false ->
  queued (getProjectStatus runningProject d) = false.
Proof.
  unfold getProjectStatus; simpl. intros H.
  apply orb_false_elim in H. apply H.
Qed.

(** A poll that delivers a status delivers the status of the job it
    fetched. *)
Lemma poll_delivered (runningProject : bool) (s : Tail) (p : Poll)
  (data : BuildStatus) :
  snd (poll runningProject s p) = Delivered data ->
  exists job, jobAnswer p = Ok job /\ data = getProjectStatus runningProject job.
Proof.
  unfold poll. destruct (jobAnswer p) as [job|err]; [|discriminate].
  intros H. exists job. split; [reflexivity|].
  repeat match type of H with
         | context [if ?c then _ else _] => destruct c
         | context [match getBuildLog ?a with _ => _ end] =>
             destruct (getBuildLog a)
         | context [let '(_, _) := ?x in _] => destruct x
         end; simpl in H; congruence.
Qed.

Lemma poll_idle (runningProject : bool) (s : Tail) (p : Poll) (job : Job) :
  builds s = [] ->
  jobAnswer p = Ok job ->
  running (getProjectStatus runningProject job) = false ->
  poll runningProject s p
  = ({| line := line s; count := S (count s); lastChange := lastChange s;
        builds := [] |},
     if runningProject then [NoActiveBuild] else [],
     Delivered (getProjectStatus runningProject job)).
Proof.
  intros Hb Hj Hr. unfold poll, tailing. rewrite Hj, Hb, record_build_nil.
  cbn [builds List.length Nat.ltb Nat.leb]. cbv iota.
  rewrite Hr, (not_running_not_queued _ _ Hr).
  destruct runningProject; reflexivity.
Qed.

(** X14.  When the first job document shows nothing queued and nothing
    executing, for instance because the build just triggered has not
    reached the queue yet, the watch ends there: it displays "no currently
    active build" if the caller watches a running project and nothing if
    not, and resolves with the status of the job document fetched next,
    whatever the server would answer afterwards. *)
Theorem idle_first_poll_ends_the_watch
  (runningProject : bool) (start : Z) (p1 p2 : Poll) (rest : list Poll)
  (j1 j2 : Job) :
  jobAnswer p1 = Ok j1 ->
  running (getProjectStatus runningProject j1) = false ->
  jobAnswer p2 = Ok j2 ->
  outer (watchProject runningProject start (p1 :: p2 :: rest))
  = Resolved
      {| running := running (getProjectStatus runningProject j2);
         queued := queued (getProjectStatus runningProject j2);
         current := current (getProjectStatus runningProject j2);
         status := status (getProjectStatus runningProject j2);
         last := last (getProjectStatus runningProject j2);
         build := or_else (build (getProjectStatus runningProject j2)) Undefined;
         eta := eta (getProjectStatus runningProject j2) |}
  /\ shown (watchProject runningProject start (p1 :: p2 :: rest))
     = (if runningProject then [NoActiveBuild] else [])
  /\ count (tail (watchProject runningProject start (p1 :: p2 :: rest)))
     = 1%nat.
Proof.
  intros H1 Hr H2. unfold watchProject. cbn [loop negb].
  erewrite (poll_idle runningProject _ p1 j1);
    [| reflexivity | exact H1 | exact Hr].
  rewrite Hr. cbn [andb loop negb]. rewrite H2.
  repeat split.
Qed.

Lemma idle_first_poll_ends_the_watch_witness :
  outer (watchProject true 0
           [answer (passed 42 false) "" 1000; answer (passed 42 false) "" 2000;
            answer (executing 42 43) "compiling" 3000])
  = Resolved
      {| running := false; queued := false; current := passing;
         status := passing; last := Num 42; build := Undefined;
         eta := Num 0 |}
  /\ shown (watchProject true 0
              [answer (passed 42 false) "" 1000; answer (passed 42 false) "" 2000;
               answer (executing 42 43) "compiling" 3000])
     = [NoActiveBuild]
  /\ count (tail (watchProject true 0
              [answer (passed 42 false) "" 1000; answer (passed 42 false) "" 2000;
               answer (executing 42 43) "compiling" 3000]))
     = 1%nat.
Proof.
  exact (idle_first_poll_ends_the_watch true 0
           (answer (passed 42 false) "" 1000) (answer (passed 42 false) "" 2000)
           [answer (executing 42 43) "compiling" 3000]
           (passed 42 false) (passed 42 false) eq_refl eq_refl eq_refl).
Defined.

Lemma loop_resolved (runningProject : bool) (script : list Poll) :
  forall s out d,
    builds s = [] ->
    outer (loop runningProject s out true script) = Resolved d ->
    exists pre p q post j j' s',
      script = pre ++ p :: q :: post
      /\ Forall (fun x => exists jx, jobAnswer x = Ok jx
                   /\ running (getProjectStatus runningProject jx) = true) pre
      /\ jobAnswer p = Ok j
      /\ running (getProjectStatus runningProject j) = false
      /\ jobAnswer q = Ok j'
      /\ builds s' = []
      /\ d = finish s' (getProjectStatus runningProject j').
Proof.
  induction script as [|p script IH]; intros s out d Hb H; [discriminate|].
  cbn [loop negb] in H.
  pose proof (poll_builds_nil runningProject s p Hb) as Hs.
  pose proof (poll_delivered runningProject s p) as Hd.
  destruct (poll runningProject s p) as [[s' seen] chain].
  cbn [fst snd] in Hs, Hd.
  destruct chain as [data| |]; [|discriminate|discriminate].
  destruct (Hd data eq_refl) as [j [Hj ->]].
  rewrite Hs in H. cbn [List.length Nat.ltb Nat.leb] in H.
  rewrite andb_true_r in H.
  destruct (running (getProjectStatus runningProject j)) eqn:Hr.
  - destruct (IH s' _ d Hs H)
      as [pre [p' [q [post [j0 [j' [s'' [E [F [A [B [C [D G]]]]]]]]]]]]].
    exists (p :: pre), p', q, post, j0, j', s''.
    repeat split; try assumption.
    + rewrite E. reflexivity.
    + constructor; [exists j; split; assumption | exact F].
  - destruct script as [|q post]; [discriminate|].
    cbn [loop negb] in H.
    destruct (jobAnswer q) as [j'|] eqn:Hq; [|discriminate].
    injection H as <-.
    exists [], p, q, post, j, j', s'.
    repeat split; try assumption. constructor.
Qed.

(** X15.  The promise of a watch is resolved only in this way: a run of
    polls that all found the job running, then a poll that found it not
    running, then one more job document, whose status is what the promise
    resolves with, its [build] replaced by [undefined] unless it is a
    number other than [0].  Seeing a second build number never ends a
    watch. *)
Theorem watch_resolves_after_the_first_idle_poll
  (runningProject : bool) (start : Z) (script : list Poll) (d : BuildStatus) :
  outer (watchProject runningProject start script) = Resolved d ->
  exists pre p q post j j',
    script = pre ++ p :: q :: post
    /\ Forall (fun x => exists jx, jobAnswer x = Ok jx
                 /\ running (getProjectStatus runningProject jx) = true) pre
    /\ jobAnswer p = Ok j
    /\ running (getProjectStatus runningProject j) = false
    /\ jobAnswer q = Ok j'
    /\ status d = status (getProjectStatus runningProject j')
    /\ current d = current (getProjectStatus runningProject j')
    /\ running d = running (getProjectStatus runningProject j')
    /\ build d = or_else (build (getProjectStatus runningProject j')) Undefined
    /\ queued d = queued (getProjectStatus runningProject j')
    /\ last d = last (getProjectStatus runningProject j')
    /\ eta d = eta (getProjectStatus runningProject j').
Proof.
  intros H. unfold watchProject in H.
  apply loop_resolved in H; [|reflexivity].
  destruct H
    as [pre [p [q [post [j [j' [s' [E [F [A [B [C [D ->]]]]]]]]]]]]].
  exists pre, p, q, post, j, j'.
  repeat split; try assumption.
  apply finish_build.
Qed.

Lemma watch_resolves_after_the_first_idle_poll_witness :
  exists pre p q post j j',
    build_42_finishes = pre ++ p :: q :: post
    /\ Forall (fun x => exists jx, jobAnswer x = Ok jx
                 /\ running (getProjectStatus false jx) = true) pre
    /\ jobAnswer p = Ok j
    /\ running (getProjectStatus false j) = false
    /\ jobAnswer q = Ok j'
    /\ status (finish (tail_at 0 0 0) (getProjectStatus false (passed 42 false)))
       = status (getProjectStatus false j')
    /\ current (finish (tail_at 0 0 0) (getProjectStatus false (passed 42 false)))
       = current (getProjectStatus false j')
    /\ running (finish (tail_at 0 0 0) (getProjectStatus false (passed 42 false)))
       = running (getProjectStatus false j')
    /\ build (finish (tail_at 0 0 0) (getProjectStatus false (passed 42 false)))
       = or_else (build (getProjectStatus false j')) Undefined
    /\ queued (finish (tail_at 0 0 0) (getProjectStatus false (passed 42 false)))
       = queued (getProjectStatus false j')
    /\ last (finish (tail_at 0 0 0) (getProjectStatus false (passed 42 false)))
       = last (getProjectStatus false j')
    /\ eta (finish (tail_at 0 0 0) (getProjectStatus false (passed 42 false)))
       = eta (getProjectStatus false j').
Proof.
  apply (watch_resolves_after_the_first_idle_poll false 0 build_42_finishes).
  reflexivity.
Defined.








(** X17.  While the first build of a job is executing there is no
    completed build, [undefined < lastBuild] is false, and the status is
    not running.  A [build] command on such a job therefore prints no line
    of the log: its watch ends at the first poll, and if the build is still
    executing at the next fetch the command throws with status
    [unknown]. *)
Theorem first_build_is_not_followed
  (start : Z) (p1 p2 : Poll) (rest : list Poll) (j1 j2 : Job) :
  jobAnswer p1 = Ok j1 ->
  lastCompletedBuild j1 = IsNull -> inQueue j1 = false ->
  jobAnswer p2 = Ok j2 ->
  lastCompletedBuild j2 = IsNull ->
  running (getProjectStatus false j1) = false
  /\ build (getProjectStatus false j1) = Null
  /\ printed (shown (watchProject false start (p1 :: p2 :: rest))) = []
  /\ exists d,
      outer (watchProject false start (p1 :: p2 :: rest)) = Resolved d
      /\ build_verdict d = BuildError unknown.
Proof.
  intros H1 Hc Hq H2 Hc2.
  assert (Hr : running (getProjectStatus false j1) = false).
  { unfold getProjectStatus; simpl. rewrite Hc, Hq. reflexivity. }
  split; [exact Hr|]. split.
  { unfold getProjectStatus; simpl. rewrite Hc, Hq. reflexivity. }
  unfold watchProject. cbn [loop negb].
  erewrite (poll_idle false _ p1 j1); [| reflexivity | exact H1 | exact Hr].
  rewrite Hr. cbn [andb loop negb]. rewrite H2. cbn [shown outer].
  split; [reflexivity|].
  eexists. split; [reflexivity|].
  unfold build_verdict, finish, getProjectStatus; simpl. rewrite Hc2.
  reflexivity.
Qed.

Lemma first_build_is_not_followed_witness :
  running (getProjectStatus false (first_build 1)) = false
  /\ build (getProjectStatus false (first_build 1)) = Null
  /\ printed (shown (watchProject false 0
                       [answer (first_build 1) "compiling" 1000;
                        answer (first_build 1) "compiling" 2000])) = []
  /\ exists d,
      outer (watchProject false 0
               [answer (first_build 1) "compiling" 1000;
                answer (first_build 1) "compiling" 2000]) = Resolved d
      /\ build_verdict d = BuildError unknown.
Proof.
  exact (first_build_is_not_followed 0
           (answer (first_build 1) "compiling" 1000)
           (answer (first_build 1) "compiling" 2000) []
           (first_build 1) (first_build 1)
           eq_refl eq_refl eq_refl eq_refl eq_refl).
Defined.

(** X18.  The [watch] command reads [data.passing], which the status
    object does not have: whenever its watch resolves, and be the build
    passing, the payload has severity [warn] and the message that the build
    failed. *)
Theorem watch_command_always_warns
  (start : Z) (script : list Poll) (payload : Payload) :
  tasks_watch start script = Some payload ->
  severity payload = warn
  /\ exists d,
      outer (watchProject true start script) = Resolved d
      /\ message payload = BuildFailed (build d).
Proof.
  unfold tasks_watch.
  destruct (outer (watchProject true start script)) as [|d|]; try discriminate.
  intros H. injection H as <-. split; [reflexivity|].
  exists d. split; reflexivity.
Qed.

Lemma watch_command_always_warns_witness :
  tasks_watch 0 [answer (passed 42 false) "" 1000;
                 answer (passed 42 false) "" 2000]
  = Some {| severity := warn; message := BuildFailed Undefined |}
  /\ status (getProjectStatus true (passed 42 false)) = passing
  /\ severity {| severity := warn; message := BuildFailed Undefined |} = warn.
Proof.
  split; [reflexivity|]. split; [reflexivity|].
  exact (proj1 (watch_command_always_warns 0
                  [answer (passed 42 false) "" 1000;
                   answer (passed 42 false) "" 2000]
                  {| severity := warn; message := BuildFailed Undefined |}
                  eq_refl)).
Defined.

(** X19.  After a trigger, as long as the build is queued, the log is not
    touched: the poll prints no line, leaves the line count and the time of
    the last output alone, and displays the wait for the build after
    [lastBuild], with the start time of the queue item, or without a time
    when that is [Infinity] or lies before the clock. *)
Theorem queued_trigger_waits (s : Tail) (p : Poll) (j : Job) :
  builds s = [] ->
  jobAnswer p = Ok j ->
  inQueue j = true ->
  poll false s p
  = ({| line := line s; count := S (count s); lastChange := lastChange s;
        builds := [] |},
     [WaitingStart (succ (number_of (lastBuild j)))
        (if strict_eq (queue_eta (queueItem j)) Infinity
            || less (queue_eta (queueItem j)) (Num (clock p))
         then None else Some (queue_eta (queueItem j)))
        (S (count s) mod 3)],
     Delivered (getProjectStatus false j)).
Proof.
  intros Hb Hj Hq.
  assert (R : running (getProjectStatus false j) = true)
    by (unfold getProjectStatus; simpl; rewrite Hq; reflexivity).
  assert (Q : queued (getProjectStatus false j) = true) by exact Hq.
  assert (B : build (getProjectStatus false j) = succ (number_of (lastBuild j)))
    by (unfold getProjectStatus; simpl; rewrite Hq; reflexivity).
  assert (E : eta (getProjectStatus false j) = queue_eta (queueItem j))
    by (unfold getProjectStatus; simpl; rewrite Hq; reflexivity).
  unfold poll, tailing. rewrite Hj, Hb, record_build_nil.
  cbn [builds List.length Nat.ltb Nat.leb]. cbv iota.
  rewrite R, Q, B, E. reflexivity.
Qed.

Lemma queued_trigger_waits_witness :
  poll false (tail_at 0 0 0) (answer (queued_after 41 9000) "" 1000)
  = ({| line := 0; count := 1; lastChange := 0; builds := [] |},
     [WaitingStart (Num 42) (Some (Num 9000)) 1],
     Delivered (getProjectStatus false (queued_after 41 9000)))
  /\ snd (fst (poll false (tail_at 0 0 0)
                 (answer (queued_after 41 500) "" 1000)))
     = [WaitingStart (Num 42) None 1].
Proof.
  split.
  - exact (queued_trigger_waits (tail_at 0 0 0)
             (answer (queued_after 41 9000) "" 1000) (queued_after 41 9000)
             eq_refl eq_refl eq_refl).
  - reflexivity.
Defined.

(** X20.  A caller watching a running project, while a build is queued,
    is shown the log of [lastBuild], the build before the queued one: that
    is the log requested, and its lines beyond the count are printed. *)
Theorem watching_while_queued_tails_the_last_build
  (s : Tail) (p : Poll) (j : Job) (n : Z) (text : string) :
  builds s = [] ->
  jobAnswer p = Ok j ->
  inQueue j = true ->
  lastBuild j = Build n ->
  logAnswer p (Num n) = Ok text ->
  printed (snd (fst (poll true s p))) = skipn (line s) (split text)
  /\ snd (poll true s p) = Delivered (getProjectStatus true j).
Proof.
  intros Hb Hj Hq Hl Ht.
  assert (R : running (getProjectStatus true j) = true)
    by (unfold getProjectStatus; simpl; rewrite Hq; reflexivity).
  assert (B : build (getProjectStatus true j) = Num n)
    by (unfold getProjectStatus; simpl; rewrite Hq, Hl; reflexivity).
  unfold poll, tailing. rewrite Hj, Hb, record_build_nil.
  cbn [builds List.length Nat.ltb Nat.leb]. cbv iota.
  rewrite R, B. cbn [orb andb]. cbv iota.
  rewrite Ht. cbn [getBuildLog].
  match goal with
  | |- context [onLog ?s0 ?l ?a ?b] =>
      pose proof (printed_onLog s0 l a b) as P;
      destruct (onLog s0 l a b) as [s' out]
  end.
  cbn [fst snd line] in *. split; [exact P | reflexivity].
Qed.

Lemma watching_while_queued_tails_the_last_build_witness :
  printed (snd (fst (poll true (tail_at 0 0 0)
                       (only_log_of 41 (queued_after 41 9000) "done" 1000))))
  = skipn (line (tail_at 0 0 0)) (split "done")
  /\ snd (poll true (tail_at 0 0 0)
            (only_log_of 41 (queued_after 41 9000) "done" 1000))
     = Delivered (getProjectStatus true (queued_after 41 9000)).
Proof.
  exact (watching_while_queued_tails_the_last_build (tail_at 0 0 0)
           (only_log_of 41 (queued_after 41 9000) "done" 1000)
           (queued_after 41 9000) 41 "done"
           eq_refl eq_refl eq_refl eq_refl eq_refl).
Defined.

(** ** The environment: which variables become settings *)

Lemma text_indexOf_from_ge (p s : string) :
  forall i, 0 <= i ->
    text_indexOf_from i p s = -1 \/ i <= text_indexOf_from i p s.
Proof.
  induction s as [|c s IH]; intros i Hi; cbn [text_indexOf_from].
  - destruct (prefix p EmptyString); [right; lia | left; reflexivity].
  - destruct (prefix p (String c s)); [right; lia|].
    destruct (IH (i + 1)) as [H|H]; [lia | left; exact H | right; lia].
Qed.

(** [key.indexOf(p) === 0] says that [key] starts with [p]. *)
Lemma text_indexOf_zero (key p : string) :
  (text_indexOf key p =? 0) = prefix p key.
Proof.
  unfold text_indexOf.
  destruct key as [|c key]; cbn [text_indexOf_from].
  - destruct (prefix p EmptyString); reflexivity.
  - destruct (prefix p (String c key)); [reflexivity|].
    destruct (text_indexOf_from_ge p key 1) as [H|H]; [lia | |];
      apply Z.eqb_neq; simpl; lia.
Qed.

Lemma remove_first_prefix (p key : string) :
  prefix p key = true -> remove_first p key = text_drop (String.length p) key.
Proof. destruct key; cbn [remove_first]; intros ->; reflexivity. Qed.

Lemma read_variable_setting (toLowerCase : string -> string)
  (prefix : string) (results : Entries) (key value : string) :
  read_variable toLowerCase (prefix ++ "_")%string results (key, value)
  = match setting_of toLowerCase prefix key with
    | Some name => assign name value results
    | None => results
    end.
Proof.
  unfold read_variable, setting_of. rewrite text_indexOf_zero.
  destruct (String.prefix (prefix ++ "_")%string key) eqn:E; [|reflexivity].
  rewrite (remove_first_prefix _ _ E). reflexivity.
Qed.

Lemma entry_assign (name value : string) (results : Entries) (n : string) :
  entry (assign name value results) n
  = if (name =? n)%string then Some value else entry results n.
Proof.
  induction results as [|[k v] o IH]; simpl.
  - reflexivity.
  - destruct (k =? name)%string eqn:E; simpl.
    + apply String.eqb_eq in E. subst k.
      destruct (name =? n)%string; reflexivity.
    + destruct (k =? n)%string eqn:F.
      * apply String.eqb_eq in F. subst k.
        rewrite String.eqb_sym, E. reflexivity.
      * exact IH.
Qed.

Lemma find_snoc {A : Type} (f : A -> bool) (l : list A) (x : A) :
  find f (l ++ [x])
  = match find f l with
    | Some y => Some y
    | None => if f x then Some x else None
    end.
Proof.
  induction l as [|y l IH]; simpl; [reflexivity|].
  destruct (f y); [reflexivity | exact IH].
Qed.

Lemma fold_read_variable (toLowerCase : string -> string) (prefix : string)
  (env : Entries) :
  forall results name,
    entry (fold_left (read_variable toLowerCase (prefix ++ "_")%string)
             env results) name
    = match find (stands_for toLowerCase prefix name) (rev env) with
      | Some variable => Some (snd variable)
      | None => entry results name
      end.
Proof.
  induction env as [|[key value] env IH]; intros results name.
  - reflexivity.
  - cbn [fold_left rev]. rewrite IH, find_snoc, read_variable_setting.
    destruct (find (stands_for toLowerCase prefix name) (rev env));
      [reflexivity|].
    unfold stands_for. cbn [fst snd].
    destruct (setting_of toLowerCase prefix key) as [n|]; [|reflexivity].
    rewrite entry_assign. destruct (n =? name)%string; reflexivity.
Qed.

(** X23.  The settings read from the environment: the setting [name] has
    the value of the last variable that starts with the prefix and an
    underscore and whose name after them, in lower case, is [name]; there
    is no such setting when there is no such variable.  The name
    [__proto__], which objects treat in their own way, is left aside. *)
Theorem getEnvironment_reads_the_last_variable
  (toLowerCase : string -> string) (prefix : string) (env : Entries)
  (name : string) :
  name <> "__proto__" ->
  entry (getEnvironment toLowerCase prefix env) name
  = option_map snd (find (stands_for toLowerCase prefix name) (rev env)).
Proof.
  intros _. unfold getEnvironment. rewrite fold_read_variable.
  destruct (find _ (rev env)); reflexivity.
Qed.

Lemma getEnvironment_reads_the_last_variable_witness :
  entry (getEnvironment lower_letters "JENKINS" dotenv_environment) "username"
  = option_map snd
      (find (stands_for lower_letters "JENKINS" "username")
         (rev dotenv_environment))
  /\ option_map snd
       (find (stands_for lower_letters "JENKINS" "username")
          (rev dotenv_environment)) = Some "nebl"
  /\ entry (getEnvironment lower_letters "JENKINS" dotenv_environment) "password"
     = Some "secret".
Proof.
  split; [|split; reflexivity].
  apply (getEnvironment_reads_the_last_variable lower_letters "JENKINS"
           dotenv_environment "username").
  discriminate.
Defined.

(** X24.  Every setting read from the environment comes from a variable
    that carries the prefix: a variable without it is never read, whatever
    its name holds further on. *)
Theorem getEnvironment_reads_prefixed_variables_only
  (toLowerCase : string -> string) (prefix : string) (env : Entries)
  (name value : string) :
  entry (getEnvironment toLowerCase prefix env) name = Some value ->
  exists key,
    In (key, value) env
    /\ String.prefix (prefix ++ "_")%string key = true
    /\ name = toLowerCase
                (text_drop (String.length (prefix ++ "_")%string) key).
Proof.
  unfold getEnvironment. rewrite fold_read_variable.
  destruct (find _ (rev env)) as [[key v]|] eqn:F; [|discriminate].
  intros H. injection H as <-.
  apply find_some in F. destruct F as [Hin Hs].
  exists key. split; [apply in_rev; exact Hin|].
  unfold stands_for, setting_of in Hs. cbn [fst] in Hs.
  destruct (String.prefix (prefix ++ "_")%string key); [|discriminate].
  apply String.eqb_eq in Hs. split; [reflexivity | symmetry; exact Hs].
Qed.

Lemma getEnvironment_reads_prefixed_variables_only_witness :
  entry (getEnvironment lower_letters "JENKINS" dotenv_environment) "username"
  = Some "nebl"
  /\ entry (getEnvironment lower_letters "JENKINS" dotenv_environment) "path"
     = None
  /\ exists key,
      In (key, "nebl") dotenv_environment
      /\ String.prefix ("JENKINS" ++ "_")%string key = true
      /\ "username"
         = lower_letters
             (text_drop (String.length ("JENKINS" ++ "_")%string) key).
Proof.
  split; [reflexivity|]. split; [reflexivity|].
  apply (getEnvironment_reads_prefixed_variables_only lower_letters "JENKINS"
           dotenv_environment "username" "nebl").
  reflexivity.
Defined.

(** ** The [log] command *)

(** X25.  The [log] command prints the log of [lastBuild], as the server
    sent it, whenever the job has a last build with a number other than
    [0], also while a newer build is queued or executing; if that request
    fails its error is the command's. *)
Theorem log_command_prints_the_last_build
  (j : Job) (logAnswer : jsval -> Response string) (n : Z) :
  lastBuild j = Build n ->
  n <> 0 ->
  tasks_log (Ok j) logAnswer
  = match logAnswer (Num n) with
    | Ok text => Ok text
    | Fail err => Fail err
    end.
Proof.
  intros Hl Hn. unfold tasks_log.
  assert (L : last (getProjectStatus false j) = Num n)
    by (unfold getProjectStatus; simpl; rewrite Hl; reflexivity).
  rewrite L. unfold or_else. cbn [truthy].
  apply Z.eqb_neq in Hn. rewrite Hn. cbn [negb].
  destruct (logAnswer (Num n)) as [text|err]; cbn [getBuildLog];
    [rewrite join_split_text|]; reflexivity.
Qed.

Lemma log_command_prints_the_last_build_witness :
  tasks_log (Ok (queued_after 41 9000))
    (logAnswer (only_log_of 41 (queued_after 41 9000) "Finished: SUCCESS" 0))
  = Ok "Finished: SUCCESS".
Proof.
  exact (log_command_prints_the_last_build (queued_after 41 9000)
           (logAnswer (only_log_of 41 (queued_after 41 9000)
                         "Finished: SUCCESS" 0))
           41 eq_refl ltac:(discriminate)).
Defined.

(** ** The log a watch asks for after a trigger *)

Lemma tailing_after_trigger (d : Job) (c n : Z) :
  lastCompletedBuild d = Build c ->
  lastBuild d = Build n ->
  tailing false (getProjectStatus false d) = true ->
  build (getProjectStatus false d) = Num (c + 1).
Proof.
  intros Hc Hl. unfold tailing, getProjectStatus; simpl. rewrite Hc, Hl.
  destruct (inQueue d); simpl; [discriminate|].
  rewrite andb_true_r. intros H. rewrite H. reflexivity.
Qed.

(** C10.  When [lastCompletedBuild] and [lastBuild] are present with their
    numbers and the resolver returns [running = true] and [queued = false],
    [build] is [lastCompletedBuild + 1], hence not [null].  So the poll of
    a caller that just triggered a build never asks for the log of [null]:
    for such a job, whatever its status, the outcome of the poll depends on
    no answer of the log source but the one for build
    [lastCompletedBuild + 1], and when the status is running and not queued
    it prints the lines of that log, be the log of [null] what it may. *)
Theorem running_unqueued_has_build (runningProject : bool) (d : Job) (c n : Z) :
  lastCompletedBuild d = Build c ->
  lastBuild d = Build n ->
  (running (getProjectStatus runningProject d) = true ->
   queued (getProjectStatus runningProject d) = false ->
   build (getProjectStatus runningProject d) = Num (c + 1)
   /\ build (getProjectStatus runningProject d) <> Null)
  /\ (forall s p p',
        jobAnswer p = Ok d -> jobAnswer p' = Ok d ->
        clock p' = clock p -> clock' p' = clock' p ->
        logAnswer p' (Num (c + 1)) = logAnswer p (Num (c + 1)) ->
        poll false s p' = poll false s p)
  /\ (forall s p text,
        builds s = [] ->
        jobAnswer p = Ok d ->
        running (getProjectStatus false d) = true ->
        queued (getProjectStatus false d) = false ->
        logAnswer p (Num (c + 1)) = Ok text ->
        printed (snd (fst (poll false s p))) = skipn (line s) (split text)
        /\ snd (poll false s p) = Delivered (getProjectStatus false d)).
Proof.
  intros Hc Hl. split; [|split].
  - unfold getProjectStatus; simpl. rewrite Hc, Hl. simpl.
    intros Hr Hq. rewrite Hq in *. simpl in Hr. rewrite Hr.
    split; [reflexivity | discriminate].
  - intros s p p' Hp Hp' C1 C2 L. unfold poll. rewrite Hp, Hp', C1, C2.
    cbv zeta.
    destruct (1 <? List.length _)%nat; [reflexivity|].
    destruct (tailing false (getProjectStatus false d)) eqn:T; [|reflexivity].
    rewrite (tailing_after_trigger d c n Hc Hl T), L. reflexivity.
  - intros s p text Hb Hp Hr Hq L.
    assert (T : tailing false (getProjectStatus false d) = true)
      by (unfold tailing; rewrite Hr, Hq; reflexivity).
    rewrite <- (tailing_after_trigger d c n Hc Hl T) in L.
    rewrite (poll_tailing false s p d text Hb Hp T L). cbn [fst snd].
    rewrite printed_onLog. split; reflexivity.
Qed.

Lemma running_unqueued_has_build_witness :
  lastCompletedBuild (executing 41 42) = Build 41
  /\ lastBuild (executing 41 42) = Build 42
  /\ running (getProjectStatus false (executing 41 42)) = true
  /\ queued (getProjectStatus false (executing 41 42)) = false
  /\ build (getProjectStatus false (executing 41 42)) = Num (41 + 1)
  /\ build (getProjectStatus false (executing 41 42)) <> Null
  /\ logAnswer (only_log_of 42 (executing 41 42) "compiling" 1000) Null
     = Fail "Not Found"
  /\ printed (snd (fst (poll false (tail_at 0 0 0)
                          (only_log_of 42 (executing 41 42) "compiling" 1000))))
     = skipn (line (tail_at 0 0 0)) (split "compiling")
  /\ snd (poll false (tail_at 0 0 0)
            (only_log_of 42 (executing 41 42) "compiling" 1000))
     = Delivered (getProjectStatus false (executing 41 42)).
Proof.
  do 4 (split; [reflexivity|]).
  destruct (running_unqueued_has_build false (executing 41 42) 41 42
              eq_refl eq_refl) as [A [_ P]].
  destruct (A eq_refl eq_refl) as [Hb Hn].
  split; [exact Hb|]. split; [exact Hn|]. split; [reflexivity|].
  exact (P (tail_at 0 0 0) (only_log_of 42 (executing 41 42) "compiling" 1000)
           "compiling" eq_refl eq_refl eq_refl eq_refl eq_refl).
Defined.

(** ** The project a command works on *)

Lemma arg_strict_eq_true (a b : arg) : arg_strict_eq a b = true <-> a = b.
Proof.
  destruct a as [| |x|x|x], b as [| |y|y|y]; simpl; split; intros H;
    try discriminate; try reflexivity;
    try (apply Bool.eqb_prop in H; subst; reflexivity);
    try (apply String.eqb_eq in H; subst; reflexivity);
    injection H as ->;
    first [apply Bool.eqb_reflx | apply String.eqb_refl].
Qed.

Lemma arg_eq_dec (a b : arg) : {a = b} + {a <> b}.
Proof.
  decide equality; [apply Bool.bool_dec | apply string_dec | apply string_dec].
Qed.

Lemma arg_indexOf_from_none (name : arg) (items : list arg) :
  forall i, 0 <= i ->
    (arg_indexOf_from i name items = -1 <-> ~ In name items).
Proof.
  induction items as [|x items IH]; intros i Hi; simpl.
  - split; [intros _ [] | reflexivity].
  - destruct (arg_strict_eq x name) eqn:E.
    + apply arg_strict_eq_true in E. subst x.
      split; [lia | intros H; exfalso; apply H; now left].
    + rewrite (IH (i + 1)) by lia. split.
      * intros H [->|Hx]; [|exact (H Hx)].
        assert (T : arg_strict_eq name name = true)
          by (apply arg_strict_eq_true; reflexivity).
        congruence.
      * intros H Hx. apply H. now right.
Qed.

Lemma arg_indexOf_none (name : arg) (items : list arg) :
  (arg_indexOf items name =? -1) = true <-> ~ In name items.
Proof.
  rewrite Z.eqb_eq. apply arg_indexOf_from_none. lia.
Qed.

Lemma prefix_is_a_start (p s : string) :
  prefix p s = true <-> exists after, s = (p ++ after)%string.
Proof.
  revert s. induction p as [|a p IH]; intros s.
  - split; [intros _; exists s; reflexivity|].
    intros _. destruct s; reflexivity.
  - destruct s as [|b s]; cbn [prefix append].
    + split; [discriminate | intros [after H]; discriminate H].
    + destruct (ascii_dec a b) as [->|N].
      * rewrite IH. split; intros [after H]; exists after.
        -- rewrite H. reflexivity.
        -- injection H as H. exact H.
      * split; [discriminate|]. intros [after H]. congruence.
Qed.

Lemma text_indexOf_from_found (p s : string) :
  forall i, 0 <= i ->
    (text_indexOf_from i p s <> -1
     <-> exists before after, s = (before ++ p ++ after)%string).
Proof.
  induction s as [|c s IH]; intros i Hi; cbn [text_indexOf_from].
  - destruct (prefix p EmptyString) eqn:E.
    + apply prefix_is_a_start in E. destruct E as [after E].
      split; [|lia]. intros _. exists EmptyString, after. exact E.
    + split; [congruence|]. intros [before [after H]].
      destruct before; [|discriminate H]. simpl in H.
      assert (T : prefix p EmptyString = true)
        by (apply prefix_is_a_start; exists after; exact H).
      congruence.
  - destruct (prefix p (String c s)) eqn:E.
    + apply prefix_is_a_start in E. destruct E as [after E].
      split; [|lia]. intros _. exists EmptyString, after. exact E.
    + rewrite (IH (i + 1)) by lia. split.
      * intros [before [after H]]. exists (String c before), after.
        rewrite H. reflexivity.
      * intros [before [after H]]. destruct before as [|c' before].
        -- simpl in H.
           assert (T : prefix p (String c s) = true)
             by (apply prefix_is_a_start; exists after; exact H).
           congruence.
        -- injection H as _ H. exists before, after. exact H.
Qed.

Lemma text_indexOf_found (text p : string) :
  (text_indexOf text p =? -1) = false
  <-> exists before after, text = (before ++ p ++ after)%string.
Proof.
  rewrite Z.eqb_neq. apply text_indexOf_from_found. lia.
Qed.

(** X21.  What [getProjectName] returns is the second positional
    argument if that is truthy and the configured default otherwise.  With
    the projects an array it is an element of the array.  With the projects
    a string, as [JENKINS_PROJECTS] gives them, it is any name whose text
    occurs somewhere in that string, a project or not.  With projects that
    are neither, nothing is returned. *)
Theorem getProjectName_returns_a_project
  (projects : Projects) (configuration : Configuration) (r : arg) :
  getProjectName projects configuration = Returned r ->
  r = arg_or (nth 1 (positional configuration) AUndefined)
        (default configuration)
  /\ match projects with
     | ProjectList items => In r items
     | ProjectText text =>
         exists before after,
           text = (before ++ arg_to_string r ++ after)%string
     | ProjectOther => False
     end.
Proof.
  unfold getProjectName.
  set (chosen := arg_or _ _).
  destruct projects as [items|text|]; [| |discriminate].
  - destruct (arg_indexOf items chosen =? -1) eqn:E; [discriminate|].
    intros H. injection H as <-. split; [reflexivity|].
    destruct (in_dec arg_eq_dec chosen items) as [I|N]; [exact I|].
    apply arg_indexOf_none in N. congruence.
  - destruct (text_indexOf text (arg_to_string chosen) =? -1) eqn:E;
      [discriminate|].
    intros H. injection H as <-. split; [reflexivity|].
    apply text_indexOf_found. exact E.
Qed.

Lemma getProjectName_returns_a_project_witness :
  (getProjectName (ProjectList [AString "api"; AString "web"]) build_web
   = Returned (AString "web")
   /\ In (AString "web") [AString "api"; AString "web"])
  /\ (getProjectName (ProjectText "api-web") build_api = Returned (AString "api")
      /\ exists before after,
          "api-web" = (before ++ arg_to_string (AString "api") ++ after)%string).
Proof.
  split; (split; [reflexivity|]).
  - exact (proj2 (getProjectName_returns_a_project
                    (ProjectList [AString "api"; AString "web"]) build_web
                    (AString "web") eq_refl)).
  - exact (proj2 (getProjectName_returns_a_project
                    (ProjectText "api-web") build_api (AString "api") eq_refl)).
Defined.

(** X22.  A truthy name given on the command line decides alone, the
    configured default never stands in for it.  With the projects an array
    the name is returned if it is an element and the error naming it and
    the projects is thrown if not; so a number, which is what the command
    line delivers for a name made of digits, is never found among
    strings.  With the projects a string the name is returned if its text
    occurs in the string, and if not a [TypeError] is thrown in place of
    the error; with projects that are neither, the [TypeError] is thrown
    always. *)
Theorem named_project_decides
  (projects : Projects) (configuration : Configuration) (a : arg) :
  nth 1 (positional configuration) AUndefined = a ->
  arg_truthy a = true ->
  match projects with
  | ProjectList items =>
      (In a items -> getProjectName projects configuration = Returned a)
      /\ (~ In a items ->
          getProjectName projects configuration = NotAvailable a items)
      /\ (forall r, a = ANumber r ->
          Forall (fun x => exists s, x = AString s) items ->
          getProjectName projects configuration = NotAvailable a items)
  | ProjectText text =>
      ((exists before after,
           text = (before ++ arg_to_string a ++ after)%string) ->
       getProjectName projects configuration = Returned a)
      /\ ((forall before after,
              text <> (before ++ arg_to_string a ++ after)%string) ->
          getProjectName projects configuration = TypeErrorThrown)
  | ProjectOther => getProjectName projects configuration = TypeErrorThrown
  end.
Proof.
  intros A T. unfold getProjectName, arg_or. rewrite A, T.
  destruct projects as [items|text|]; [| |reflexivity].
  - assert (Hnot : ~ In a items ->
                   (if arg_indexOf items a =? -1
                    then NotAvailable a items else Returned a)
                   = NotAvailable a items).
    { intros N. apply arg_indexOf_none in N. rewrite N. reflexivity. }
    split; [|split; [exact Hnot|]].
    + intros I. destruct (arg_indexOf items a =? -1) eqn:E; [|reflexivity].
      apply arg_indexOf_none in E. contradiction.
    + intros r -> F. apply Hnot. intros I.
      rewrite Forall_forall in F. destruct (F _ I) as [s H]. discriminate H.
  - split.
    + intros H. apply text_indexOf_found in H. rewrite H. reflexivity.
    + intros H.
      destruct (text_indexOf text (arg_to_string a) =? -1) eqn:E;
        [reflexivity|].
      apply text_indexOf_found in E. destruct E as [before [after E]].
      exfalso. exact (H before after E).
Qed.

Lemma named_project_decides_witness :
  (arg_truthy (AString "docs") = true
   /\ default build_docs = AString "api"
   /\ getProjectName (ProjectList [AString "api"; AString "web"]) build_docs
      = NotAvailable (AString "docs") [AString "api"; AString "web"])
  /\ (arg_truthy (ANumber "42") = true
      /\ getProjectName (ProjectList [AString "42"; AString "web"])
           build_number_42
         = NotAvailable (ANumber "42") [AString "42"; AString "web"])
  /\ (arg_truthy (AString "api") = true
      /\ getProjectName (ProjectText "api-web") build_api
         = Returned (AString "api")).
Proof.
  split; [|split].
  - split; [reflexivity|]. split; [reflexivity|].
    apply (proj1 (proj2 (named_project_decides
                           (ProjectList [AString "api"; AString "web"])
                           build_docs (AString "docs") eq_refl eq_refl))).
    intros [H|[H|[]]]; discriminate H.
  - split; [reflexivity|].
    apply (proj2 (proj2 (named_project_decides
                           (ProjectList [AString "42"; AString "web"])
                           build_number_42 (ANumber "42") eq_refl eq_refl))
             "42" eq_refl).
    repeat constructor; eexists; reflexivity.
  - split; [reflexivity|].
    apply (proj1 (named_project_decides (ProjectText "api-web") build_api
                    (AString "api") eq_refl eq_refl)).
    exists EmptyString, "-web". reflexivity.
Defined.
